(** * FieldDataProcessor: a shallow embedding of the field-data pipeline

    The development follows [field_data_proccessor.py] and
    [data_ingestion.py].  Tables are pandas data frames; the pandas
    operations the pipeline calls ([rename], [abs], [apply], [merge],
    [drop]) are given a value-level model first, then the three gateway
    functions and the methods of [FieldDataProcessor] are embedded in a
    state-and-exception monad over the instance attributes.  The log
    messages are left out: they go to a stream and read or change no
    attribute.  How [initialize_logging] configures the logger that all
    instances share is modelled on its own, in [Logging]. *)

From Stdlib Require Import ZArith Floats.SpecFloat.
From stdpp Require Import gmap strings list fin_maps.

Local Open Scope string_scope.
Local Open Scope Z_scope.

(** ** Exceptions *)

(** The Python exceptions that the modelled code can raise or forward. *)
Inductive exn : Type :=
| KeyError (key : string)
| TypeError
| ValueError
| AttributeError
| IndexError
| NameError
| ImportError
| EmptyDataError
| MergeError
| OtherError (msg : string).

Inductive result (A : Type) : Type :=
| Ok (a : A)
| Raise (e : exn).
Arguments Ok {A} a.
Arguments Raise {A} e.

(** ** Cell values *)

Module Value.

(** A cell of a data frame: Python [None], an [int64] element, a
    [float64] element (IEEE 754 binary64, NaN included: NaN is how pandas
    stores a missing number) or a [str]. *)
Inductive value : Type :=
| VNone
| VInt (z : Z)
| VFloat (f : spec_float)
| VStr (s : string).

#[global] Instance spec_float_eq_dec : EqDecision spec_float.
Proof. solve_decision. Defined.

#[global] Instance value_eq_dec : EqDecision value.
Proof. solve_decision. Defined.

Definition NaN : value := VFloat S754_nan.

(** Two's complement wrap-around of a 64-bit signed integer. *)
Definition wrap64 (z : Z) : Z := (z + 2 ^ 63) mod 2 ^ 64 - 2 ^ 63.

Definition int64_min : Z := - 2 ^ 63.
Definition int64_max : Z := 2 ^ 63 - 1.
Definition in_int64 (z : Z) : Prop := int64_min <= z <= int64_max.

(** [abs] of one element.  [numpy.absolute] on [int64] wraps, on
    [float64] it clears the sign bit, and Python's [abs] rejects [None]
    and [str] with a [TypeError]. *)
Definition abs_value (v : value) : result value :=
  match v with
  | VInt z => Ok (VInt (wrap64 (Z.abs z)))
  | VFloat f => Ok (VFloat (SFabs f))
  | VNone | VStr _ => Raise TypeError
  end.

(** The element-wise comparison [v >= 0]; every comparison with NaN is
    false. *)
Definition ge0 (v : value) : bool :=
  match v with
  | VInt z => 0 <=? z
  | VFloat f => SFleb (S754_zero false) f
  | VNone | VStr _ => false
  end.

(** The element-wise comparison [v == w] on numbers and strings. *)
Definition veq (v w : value) : bool :=
  match v, w with
  | VInt a, VInt b => a =? b
  | VFloat a, VFloat b => SFeqb a b
  | VStr a, VStr b => String.eqb a b
  | _, _ => false
  end.

Definition is_nan (v : value) : bool :=
  match v with VFloat S754_nan => true | _ => false end.

Definition is_int (v : value) : bool :=
  match v with VInt _ => true | _ => false end.

Definition is_float (v : value) : bool :=
  match v with VFloat _ => true | _ => false end.

(** The cast of an [int64] to [float64]: the nearest binary64 number,
    ties to even. *)
Definition float_of_int (z : Z) : spec_float :=
  binary_normalize 53 1024 z 0 false.

(** [astype(float64)] of one element of a numeric column. *)
Definition as_float64 (v : value) : value :=
  match v with
  | VInt z => VFloat (float_of_int z)
  | _ => v
  end.

(** The integer that a float is equal to, when there is one. *)
Definition int_of_float (f : spec_float) : option Z :=
  match f with
  | S754_zero _ => Some 0
  | S754_finite s m e =>
      let n := if s then Z.neg m else Z.pos m in
      if 0 <=? e then Some (n * 2 ^ e)
      else if Z.pos m mod 2 ^ (- e) =? 0 then Some (n / 2 ^ (- e))
      else None
  | S754_infinity _ | S754_nan => None
  end.

(** How a join key is hashed and compared: missing values ([None], NaN)
    fall into one class, and a number is known by its value, so that an
    integer and the float equal to it are one key ([1 == 1.0]) and the
    two zeros are one key. *)
Definition key_norm (v : value) : value :=
  match v with
  | VNone | VFloat S754_nan => VNone
  | VFloat f => match int_of_float f with
                | Some z => VInt z
                | None => v
                end
  | _ => v
  end.

Definition key_eqb (v w : value) : bool :=
  bool_decide (key_norm v = key_norm w).
Arguments key_eqb : simpl never.

End Value.
Export Value.

(** ** Data frames *)

Module Pandas.

(** A column of data. *)
Abbreviation Series := (list value).

(** A data frame: the length of its row index and its columns in order,
    each a label with its data.  pandas allows a label to occur twice. *)
Record DataFrame : Type := mkDF {
  nrows : nat;
  cols : list (string * Series)
}.

#[global] Instance DataFrame_eq_dec : EqDecision DataFrame.
Proof. solve_decision. Defined.

(** Every column has one entry per row. *)
Definition rectangular (df : DataFrame) : Prop :=
  Forall (fun c => length c.2 = nrows df) (cols df).

(** The type pandas gives a column of data. *)
Inductive dtype : Type := Int64 | Float64 | Object.

(** The type of a column is read off its cells: [int64] when all are
    integers, [float64] when all are floats, [object] otherwise.  A
    column without cells is taken as [read_csv] types it in a file
    without rows, as [object]. *)
Definition dtype_of (s : Series) : dtype :=
  match s with
  | [] => Object
  | _ => if forallb is_int s then Int64
         else if forallb is_float s then Float64
         else Object
  end.

(** [df.columns] *)
Definition columns (df : DataFrame) : list string := (cols df).*1.

Definition has_label (df : DataFrame) (c : string) : bool :=
  bool_decide (c ∈ columns df).

(** [df.empty]: some axis has length zero. *)
Definition empty (df : DataFrame) : bool :=
  (nrows df =? 0)%nat || (length (cols df) =? 0)%nat.

(** The data found under label [c]: every column that carries it. *)
Definition select (df : DataFrame) (c : string) : list Series :=
  (filter (fun p => p.1 = c) (cols df)).*2.

(** [df.rename(columns=m)]: labels that are keys of [m] are replaced,
    the others stay; a key of [m] that is not a label is ignored
    (pandas' default [errors='ignore']). *)
Definition rename_label (m : gmap string string) (c : string) : string :=
  default c (m !! c).

Definition rename (m : gmap string string) (df : DataFrame) : DataFrame :=
  mkDF (nrows df) (prod_map (rename_label m) id <$> cols df).

(** [df.drop(columns=c)]: removes every column labelled [c]; with the
    default [errors='raise'] an absent label is a [KeyError]. *)
Definition drop_column (c : string) (df : DataFrame) : result DataFrame :=
  if has_label df c
  then Ok (mkDF (nrows df) (filter (fun p => p.1 ≠ c) (cols df)))
  else Raise (KeyError c).

End Pandas.
Export Pandas.

(** ** Element-wise column operations *)

Module Columns.

(** Mapping a function that may raise over a list: the first exception
    wins. *)
Fixpoint mapR {A B} (f : A -> result B) (l : list A) : result (list B) :=
  match l with
  | [] => Ok []
  | x :: l' =>
      match f x with
      | Raise e => Raise e
      | Ok y =>
          match mapR f l' with
          | Raise e => Raise e
          | Ok ys => Ok (y :: ys)
          end
      end
  end.

(** [Series.abs()] *)
Definition series_abs (s : Series) : result Series := mapR abs_value s.

(** [df[c] = df[c].abs()]: a [KeyError] when no column is labelled [c];
    otherwise the data under [c] is replaced, in place, by its absolute
    values. *)
Definition abs_column_of (c : string) (df : DataFrame) : result DataFrame :=
  if has_label df c then
    match mapR (fun p : string * Series =>
                  if decide (p.1 = c)
                  then match series_abs p.2 with
                       | Ok s => Ok (p.1, s)
                       | Raise e => Raise e
                       end
                  else Ok p) (cols df) with
    | Ok cs => Ok (mkDF (nrows df) cs)
    | Raise e => Raise e
    end
  else Raise (KeyError c).

(** The frame with the data under [c] sent through [g], in place. *)
Definition map_column (c : string) (g : Series -> Series) (df : DataFrame)
  : DataFrame :=
  mkDF (nrows df)
       ((fun p : string * Series =>
           if decide (p.1 = c) then (p.1, g p.2) else p) <$> cols df).

(** [mapping.get(crop, crop)] for a dict with [str] keys: only a [str]
    can be equal to a key. *)
Definition get_default (mapping : gmap string string) (crop : value) : value :=
  match crop with
  | VStr s => match mapping !! s with
              | Some t => VStr t
              | None => crop
              end
  | _ => crop
  end.

(** [df[c] = df[c].apply(f)]: a [KeyError] when no column is labelled
    [c].  With a repeated label [df[c]] is a frame, whose [apply] hands
    whole columns to [f]; the pipeline's [f] looks its argument up in a
    dict and a column cannot be hashed, a [TypeError]. *)
Definition apply_column (c : string) (f : value -> value) (df : DataFrame)
  : result DataFrame :=
  match select df c with
  | [] => Raise (KeyError c)
  | [_] => Ok (map_column c (fmap f) df)
  | _ => Raise TypeError
  end.

End Columns.
Export Columns.

(** ** Left join *)

Module Merge.

(** Positions [j0 + j] of the right key column whose entry equals [k]. *)
Fixpoint matches_from (j0 : nat) (k : value) (rk : Series) : list nat :=
  match rk with
  | [] => []
  | v :: rk' =>
      if key_eqb k v then j0 :: matches_from (S j0) k rk'
      else matches_from (S j0) k rk'
  end.

Definition matches (k : value) (rk : Series) : list nat :=
  matches_from 0 k rk.

(** The output rows that left row [i] with key [k] gives: one per
    matching right row, in the order of the right table, or a single
    row without a right partner. *)
Definition rows_for (i : nat) (k : value) (rk : Series)
  : list (nat * option nat) :=
  match matches k rk with
  | [] => [(i, None)]
  | js => (fun j => (i, Some j)) <$> js
  end.

(** The pair of indexers of a left join, left rows in their order. *)
Fixpoint join_from (i0 : nat) (lk rk : Series) : list (nat * option nat) :=
  match lk with
  | [] => []
  | k :: lk' => rows_for i0 k rk ++ join_from (S i0) lk' rk
  end.

Definition join_indexer (lk rk : Series) : list (nat * option nat) :=
  join_from 0 lk rk.

(** The two key columns as the join compares them.  Numeric key columns
    of different types are cast to their common type, so an [int64]
    column that meets a [float64] column is compared as floats; in every
    other case the cells are compared as they are. *)
Definition common_keys (lk rk : Series) : Series * Series :=
  match dtype_of lk, dtype_of rk with
  | Int64, Float64 => (as_float64 <$> lk, rk)
  | Float64, Int64 => (lk, as_float64 <$> rk)
  | _, _ => (lk, rk)
  end.

(** The indexers of [pd.merge(..., how='left')] for two key columns. *)
Definition merge_indexer (lk rk : Series) : list (nat * option nat) :=
  join_indexer (common_keys lk rk).1 (common_keys lk rk).2.

(** Some output row has no right partner. *)
Definition needs_fill (ix : list (nat * option nat)) : bool :=
  existsb (fun p => bool_decide (p.2 = None)) ix.

(** A column that has to hold a NaN: an [int64] column is first cast to
    [float64], the others can hold it as they are. *)
Definition promote (fill : bool) (s : Series) : Series :=
  if fill then
    match dtype_of s with
    | Int64 => as_float64 <$> s
    | Float64 | Object => s
    end
  else s.

(** Gathering a column through an indexer; a row without partner is
    filled with NaN. *)
Definition take_opt (s : Series) (oi : option nat) : value :=
  match oi with
  | Some i => default NaN (s !! i)
  | None => NaN
  end.

Definition take_left (ix : list (nat * option nat)) (s : Series) : Series :=
  (fun p => take_opt s (Some p.1)) <$> ix.

Definition take_right (ix : list (nat * option nat)) (s : Series) : Series :=
  (fun p => take_opt (promote (needs_fill ix) s) p.2) <$> ix.

(** A label found on both sides (the key apart) gets the side's suffix. *)
Definition suffixed (others : list string) (sfx c : string) : string :=
  if bool_decide (c ∈ others) then c +:+ sfx else c.

(** A column of type [int64] or [float64]. *)
Definition numeric_dtype (s : Series) : bool :=
  match dtype_of s with
  | Int64 | Float64 => true
  | Object => false
  end.

Definition is_string (v : value) : bool :=
  match v with VStr _ => true | _ => false end.

(** A column that pandas infers as "string" or "mixed": it holds no
    integer and holds some [str] or [None]. *)
Definition string_like (s : Series) : bool :=
  forallb (fun v => negb (is_int v)) s
  && existsb (fun v => match v with
                       | VNone | VStr _ => true
                       | _ => false
                       end) s.

(** pandas refuses to join a numeric key column with a string-like key
    column, unless one of them is empty. *)
Definition keys_clash (lk rk : Series) : bool :=
  negb (bool_decide (lk = [])) && negb (bool_decide (rk = []))
  && ((numeric_dtype lk && string_like rk)
      || (string_like lk && numeric_dtype rk)).

(** Which entries of a list of labels repeat an earlier one
    ([Index.duplicated()]). *)
Fixpoint duplicated_from (seen l : list string) : list bool :=
  match l with
  | [] => []
  | c :: l' => bool_decide (c ∈ seen) :: duplicated_from (c :: seen) l'
  end.

Definition duplicated (l : list string) : list bool := duplicated_from [] l.

(** Some label repeats an earlier one after the suffixes were added and
    did not before. *)
Definition suffix_clash (before after : list string) : bool :=
  existsb id (zip_with (fun a b => a && negb b)
                (duplicated after) (duplicated before)).

(** pandas refuses a join whose suffixes make two columns of one side
    share a label. *)
Definition suffixes_clash (key : string) (left right : DataFrame) : bool :=
  let rnames := (filter (fun p => p.1 ≠ key) (cols right)).*1 in
  suffix_clash (columns left) (suffixed rnames "_x" <$> columns left)
  || suffix_clash rnames (suffixed (columns left) "_y" <$> rnames).

(** [pd.merge(left, right, on=key, how='left')].  The key must label
    exactly one column on each side: [KeyError] when it is absent,
    [ValueError] when it is repeated or when the two key columns clash;
    [MergeError] when the suffixes clash.  The result has the left
    columns, then the right columns without the key; every output row
    of a left join has a left row, so only right columns are filled. *)
Definition merge_left (key : string) (left right : DataFrame)
  : result DataFrame :=
  match select left key, select right key with
  | [lk], [rk] =>
      if keys_clash lk rk then Raise ValueError
      else if suffixes_clash key left right then Raise MergeError
      else
        let ix := merge_indexer lk rk in
        let rcols := filter (fun p => p.1 ≠ key) (cols right) in
        let lout := (fun p : string * Series =>
                       (suffixed rcols.*1 "_x" p.1, take_left ix p.2))
                      <$> cols left in
        let rout := (fun p : string * Series =>
                       (suffixed (columns left) "_y" p.1, take_right ix p.2))
                      <$> rcols in
        Ok (mkDF (length ix) (lout ++ rout))
  | [], _ | _, [] => Raise (KeyError key)
  | _, _ => Raise ValueError
  end.

End Merge.
Export Merge.

(** ** The outside world and the instance state *)

(** A SQLAlchemy engine is known by the path it was created for. *)
Inductive Engine : Type := mkEngine (path : string).

(** What the libraries under the ingestion gateway answer: SQLAlchemy's
    [create_engine] and the connection test of [create_db_engine],
    pandas' [read_sql_query] on a connection that [query_data] opens for
    it, and [read_csv]. *)
Record World : Type := mkWorld {
  sa_create_engine : string -> result Engine;
  sa_connect : Engine -> result unit;
  pd_read_sql_query : Engine -> string -> result DataFrame;
  pd_read_csv : string -> result DataFrame
}.

(** The trace: one entry for each call of a gateway function,
    [create_db_engine] on a path, [query_data] with a query and
    [read_from_web_CSV] on a URL.  The connection that [query_data]
    opens for its query has no entry of its own. *)
Inductive event : Type :=
| Connect (path : string)
| Query (sql : string)
| Fetch (url : string).

(** The attributes that [__init__] sets; [columns_to_rename] is a dict
    whose first item is read, so its items are kept in order. *)
Record FieldDataProcessor : Type := mkFDP {
  db_path : string;
  sql_query : string;
  columns_to_rename : list (string * string);
  values_to_rename : gmap string string;
  weather_map_data : string;
  df : option DataFrame;
  engine : option Engine
}.

(** [FieldDataProcessor(config_params)]: no table, no engine. *)
Definition init (path query : string) (swap : list (string * string))
    (mapping : gmap string string) (url : string) : FieldDataProcessor :=
  mkFDP path query swap mapping url None None.

Definition set_df (d : DataFrame) (self : FieldDataProcessor)
  : FieldDataProcessor :=
  mkFDP (db_path self) (sql_query self) (columns_to_rename self)
        (values_to_rename self) (weather_map_data self) (Some d) (engine self).

Definition set_engine (e : Engine) (self : FieldDataProcessor)
  : FieldDataProcessor :=
  mkFDP (db_path self) (sql_query self) (columns_to_rename self)
        (values_to_rename self) (weather_map_data self) (df self) (Some e).

(** The instance together with the trace of outside calls, oldest first. *)
Record Machine : Type := mkMachine {
  self : FieldDataProcessor;
  calls : list event
}.

(** A method: it reads and writes the machine and returns or raises; what
    it wrote before raising stays written. *)
Definition M (A : Type) : Type := Machine -> result A * Machine.

#[global] Instance M_ret : MRet M := fun A a s => (Ok a, s).
#[global] Instance M_bind : MBind M := fun A B k m s =>
  match m s with
  | (Ok a, s') => k a s'
  | (Raise e, s') => (Raise e, s')
  end.

Definition raise {A} (e : exn) : M A := fun s => (Raise e, s).
Definition lift {A} (r : result A) : M A := fun s => (r, s).
Definition get_self : M FieldDataProcessor := fun s => (Ok (self s), s).
Definition put_self (p : FieldDataProcessor) : M unit :=
  fun s => (Ok tt, mkMachine p (calls s)).
Definition emit (ev : event) : M unit :=
  fun s => (Ok tt, mkMachine (self s) (calls s ++ [ev])).

(** ** data_ingestion.py *)

Section Gateway.
Variable w : World.

(** [create_db_engine].  The [ImportError] handler raises [e], a name that
    only the other handler binds, so what leaves it is a [NameError] (an
    [UnboundLocalError]); any other exception is raised again as it is. *)
Definition create_db_engine (path : string) : M Engine :=
  emit (Connect path);;
  match sa_create_engine w path with
  | Ok eng =>
      match sa_connect w eng with
      | Ok _ => mret eng
      | Raise ImportError => raise NameError
      | Raise e => raise e
      end
  | Raise ImportError => raise NameError
  | Raise e => raise e
  end.

(** [query_data]: opening the connection and reading the query over it
    are one answer of the world; an empty result is a [ValueError]; both
    handlers raise again what they caught. *)
Definition query_data (eng : Engine) (query : string) : M DataFrame :=
  emit (Query query);;
  match pd_read_sql_query w eng query with
  | Ok d => if empty d then raise ValueError else mret d
  | Raise e => raise e
  end.

(** [read_from_web_CSV]: the table as [read_csv] gives it; both handlers
    raise again what they caught. *)
Definition read_from_web_CSV (url : string) : M DataFrame :=
  emit (Fetch url);;
  match pd_read_csv w url with
  | Ok d => mret d
  | Raise e => raise e
  end.

End Gateway.

(** ** field_data_proccessor.py *)

(** The loop [while temp_name in self.df.columns: temp_name += "_"], run
    for at most [fuel] extensions; [None] when the fuel is used up before
    a free name is found. *)
Fixpoint fresh_name (fuel : nat) (names : list string) (temp_name : string)
  {struct fuel} : option string :=
  if bool_decide (temp_name ∈ names) then
    match fuel with
    | O => None
    | S fuel' => fresh_name fuel' names (temp_name +:+ "_")
    end
  else Some temp_name.

(** One extension per column is enough (see [fresh_name_total]). *)
Definition temp_name_for (names : list string) : option string :=
  fresh_name (length names) names "__temp_name_for_swap__".

(** The two [rename] calls of the swap, as functions of the table. *)
Definition swap_step1 (column1 column2 temp_name : string) (d : DataFrame)
  : DataFrame :=
  rename (<[column2 := column1]> {[column1 := temp_name]}) d.

Definition swap_step2 (column2 temp_name : string) (d : DataFrame)
  : DataFrame :=
  rename {[temp_name := column2]} d.

Section Processor.
Variable w : World.

(** [ingest_sql_data] *)
Definition ingest_sql_data : M DataFrame :=
  this ← get_self;
  eng ← create_db_engine w (db_path this);
  put_self (set_engine eng this);;
  this ← get_self;
  d ← query_data w eng (sql_query this);
  put_self (set_df d this);;
  mret d.

(** [rename_columns].  Reading the first item of an empty dict is an
    [IndexError]; [self.df.columns] on [None] is an [AttributeError].  The
    loop always finds its name, so the branch for used-up fuel is never
    taken (see [fresh_name_total]). *)
Definition rename_columns : M unit :=
  this ← get_self;
  match columns_to_rename this with
  | [] => raise IndexError
  | (column1, column2) :: _ =>
      match df this with
      | None => raise AttributeError
      | Some d =>
          match temp_name_for (columns d) with
          | None => raise (OtherError "temp_name")
          | Some temp_name =>
              let d1 := swap_step1 column1 column2 temp_name d in
              put_self (set_df d1 this);;
              put_self (set_df (swap_step2 column2 temp_name d1) this)
          end
      end
  end.

(** [apply_corrections]; subscripting [None] is a [TypeError].  The
    first assignment is kept when the second statement raises. *)
Definition apply_corrections (column_name abs_column : string) : M unit :=
  this ← get_self;
  match df this with
  | None => raise TypeError
  | Some d =>
      d1 ← lift (abs_column_of abs_column d);
      put_self (set_df d1 this);;
      d2 ← lift (apply_column column_name
                   (get_default (values_to_rename this)) d1);
      put_self (set_df d2 this)
  end.

(** [weather_station_mapping]: the branch is skipped, and [None]
    returned, when there is no table yet. *)
Definition weather_station_mapping : M (option DataFrame) :=
  this ← get_self;
  match df this with
  | Some d =>
      weather_map_df ← read_from_web_CSV w (weather_map_data this);
      merged ← lift (merge_left "Field_ID" d weather_map_df);
      put_self (set_df merged this);;
      mret (Some weather_map_df)
  | None => mret None
  end.

(** [process] *)
Definition process : M unit :=
  ingest_sql_data;;
  rename_columns;;
  apply_corrections "Crop_type" "Elevation";;
  weather_station_mapping;;
  this ← get_self;
  match df this with
  | None => raise AttributeError
  | Some d =>
      d' ← lift (drop_column "Unnamed: 0" d);
      put_self (set_df d' this)
  end.

End Processor.

(** ** Auxiliary notions used in the statements *)

(** Names at least as long as [n]: the measure of the placeholder loop. *)
Definition at_least (n : nat) (names : list string) : list string :=
  filter (fun s => (n <= String.length s)%nat) names.

(** What the swap should do to a label. *)
Definition swap_label (A B c : string) : string :=
  if decide (c = B) then A else if decide (c = A) then B else c.

(** The table with every label sent through [f], data untouched. *)
Definition relabel (f : string -> string) (d : DataFrame) : DataFrame :=
  mkDF (nrows d) (prod_map f id <$> cols d).

(** A cell that [abs] accepts: a float, or an integer that fits [int64]. *)
Definition numeric (v : value) : Prop :=
  match v with
  | VInt z => in_int64 z
  | VFloat _ => True
  | VNone | VStr _ => False
  end.

(** [v'] is the magnitude of [v] in the type of [v]: the sign of a float
    is cleared (NaN stays NaN) and an integer is negated when negative,
    which sends the least [int64] to itself. *)
Definition magnitude (v v' : value) : Prop :=
  match v with
  | VInt z => v' = VInt (if decide (z = int64_min) then int64_min else Z.abs z)
  | VFloat f => v' = VFloat (SFabs f)
  | VNone | VStr _ => False
  end.

(** C1 as the specification words it: after [apply_corrections], every
    value under Elevation is [>= 0]. *)
Definition elevation_nonneg_as_stated : Prop :=
  forall (this : FieldDataProcessor) (d d' : DataFrame) (tr : list event),
    df this = Some d ->
    apply_corrections "Crop_type" "Elevation" (mkMachine this tr)
    = (Ok tt, mkMachine (set_df d' this) tr) ->
    forall (s : Series) (v : value),
      s ∈ select d' "Elevation" -> v ∈ s -> ge0 v = true.

(** C9 as the specification words it: for every table and every mapping,
    canonicalizing a second time changes nothing. *)
Definition canonicalization_idempotent_as_stated : Prop :=
  forall (mapping : gmap string string) (c : string) (d d1 d2 : DataFrame),
    apply_column c (get_default mapping) d = Ok d1 ->
    apply_column c (get_default mapping) d1 = Ok d2 ->
    d2 = d1.

(** A mapping none of whose canonical values is mapped further. *)
Definition settled (mapping : gmap string string) : Prop :=
  forall k t, mapping !! k = Some t ->
              mapping !! t = None \/ mapping !! t = Some t.



(** How many entries of the right key column equal [k]. *)
Definition partners (k : value) (rk : Series) : nat :=
  length (filter (fun v => key_eqb k v = true) rk).

(** The row count of a left join: each left row counts once per partner,
    and once when it has none. *)
Definition fan_out (lk rk : Series) : nat :=
  sum_list ((fun k => (partners k rk `max` 1)%nat) <$> lk).

(** The columns of the right table that the join appends. *)
Definition appended (key : string) (right : DataFrame) : list (string * Series) :=
  filter (fun p => p.1 ≠ key) (cols right).



(** The four stages of [process], without the final [drop]. *)
Definition four_stages (w : World) : M (option DataFrame) :=
  ingest_sql_data w;;
  rename_columns;;
  apply_corrections "Crop_type" "Elevation";;
  weather_station_mapping w.

(** C6 as the specification words it: once the four stages have run,
    [process] completes, whether or not the joined table has the index
    column. *)
Definition process_completes_as_stated : Prop :=
  forall (w : World) (m m' : Machine) (r : option DataFrame),
    four_stages w m = (Ok r, m') ->
    exists m'', process w m = (Ok tt, m'').

(** ** Sample tables and instances *)

Module Sample.

(** -12.5, 12.5 and 0.5 as binary64 numbers. *)
Definition minus_12_5 : spec_float := S754_finite true 7036874417766400 (-49).
Definition plus_12_5 : spec_float := S754_finite false 7036874417766400 (-49).
Definition half : spec_float := S754_finite false 4503599627370496 (-53).

(** 0.0, 1.0, 2.0 and 4.0 as binary64 numbers. *)
Definition f0 : spec_float := S754_zero false.
Definition f1 : spec_float := S754_finite false 4503599627370496 (-52).
Definition f2 : spec_float := S754_finite false 4503599627370496 (-51).
Definition f4 : spec_float := S754_finite false 4503599627370496 (-50).

(** A table with columns [A, B, C]. *)
Definition abc : DataFrame :=
  mkDF 2 [("A", [VInt 1; VInt 2]);
          ("B", [VStr "x"; VStr "y"]);
          ("C", [VFloat plus_12_5; VFloat S754_nan])].

(** A table that lacks column B. *)
Definition ac : DataFrame :=
  mkDF 2 [("A", [VInt 1; VInt 2]);
          ("C", [VFloat plus_12_5; VFloat S754_nan])].

(** A table that has neither A nor B. *)
Definition c_only : DataFrame :=
  mkDF 2 [("C", [VFloat plus_12_5; VFloat S754_nan])].

(** An instance configured with [columns_to_rename = {"A": "B"}] that
    holds table [d]. *)
Definition swapper (d : DataFrame) : FieldDataProcessor :=
  set_df d (init "sqlite:///farm.db" "SELECT * FROM fields"
                 [("A", "B")] ∅ "https://example.org/map.csv").

(** The field table as the query returns it: the two columns that the
    pipeline swaps are under each other's name, one elevation is
    negative and one is missing. *)
Definition fields : DataFrame :=
  mkDF 3 [("Field_ID", [VInt 1; VInt 2; VInt 3]);
          ("Elevation", [VFloat minus_12_5; VFloat S754_nan; VFloat half]);
          ("Annual_yield", [VStr "wheat "; VStr "wheat"; VStr "tea"]);
          ("Crop_type", [VFloat half; VFloat plus_12_5; VFloat half])].

(** The same table once the two columns are swapped. *)
Definition fields_swapped : DataFrame :=
  mkDF 3 [("Field_ID", [VInt 1; VInt 2; VInt 3]);
          ("Elevation", [VFloat minus_12_5; VFloat S754_nan; VFloat half]);
          ("Crop_type", [VStr "wheat "; VStr "wheat"; VStr "tea"]);
          ("Annual_yield", [VFloat half; VFloat plus_12_5; VFloat half])].

(** A table whose elevation column is [int64] and holds its least
    value. *)
Definition fields_int : DataFrame :=
  mkDF 2 [("Field_ID", [VInt 1; VInt 2]);
          ("Elevation", [VInt (-5); VInt int64_min]);
          ("Crop_type", [VStr "tea"; VStr "rice"])].

(** The station mapping as the CSV gives it: field 1 is listed twice,
    field 2 not at all, and the first column is the index that was
    written with the file. *)
Definition station_map : DataFrame :=
  mkDF 3 [("Unnamed: 0", [VInt 0; VInt 1; VInt 2]);
          ("Field_ID", [VInt 1; VInt 1; VInt 3]);
          ("Weather_station", [VInt 4; VInt 0; VInt 2])].

(** A mapping file that has its header line and no data line. *)
Definition station_map_no_rows : DataFrame :=
  mkDF 0 [("Unnamed: 0", []); ("Field_ID", []); ("Weather_station", [])].

(** A mapping file that was written without an index column. *)
Definition station_map_no_index : DataFrame :=
  mkDF 2 [("Field_ID", [VInt 1; VInt 3]);
          ("Weather_station", [VInt 4; VInt 2])].

Definition url : string := "https://example.org/map.csv".

(** The pipeline's instance before [process]. *)
Definition pipeline : FieldDataProcessor :=
  init "sqlite:///farm.db" "SELECT * FROM fields"
       [("Annual_yield", "Crop_type")] {["wheat" := "Wheat"]} url.

(** A world in which the database answers [sql] and the URL [csv]. *)
Definition world_of (sql csv : DataFrame) : World :=
  mkWorld (fun path => Ok (mkEngine path)) (fun _ => Ok tt)
          (fun _ _ => Ok sql) (fun _ => Ok csv).

(** A world in which nothing can be reached. *)
Definition offline : World :=
  mkWorld (fun _ => Raise (OtherError "unreachable"))
          (fun _ => Raise (OtherError "unreachable"))
          (fun _ _ => Raise (OtherError "unreachable"))
          (fun _ => Raise (OtherError "unreachable")).

(** A mapping whose canonical value for "a" is itself a raw value. *)
Definition chained : gmap string string := {["a" := "b"; "b" := "c"]}.

Definition letters : DataFrame := mkDF 1 [("Crop_type", [VStr "a"])].

(** The swapped table after the two steps of [apply_corrections]. *)
Definition magnitudes : DataFrame :=
  mkDF 3 [("Field_ID", [VInt 1; VInt 2; VInt 3]);
          ("Elevation", [VFloat plus_12_5; VFloat S754_nan; VFloat half]);
          ("Crop_type", [VStr "wheat "; VStr "wheat"; VStr "tea"]);
          ("Annual_yield", [VFloat half; VFloat plus_12_5; VFloat half])].

Definition corrected : DataFrame :=
  mkDF 3 [("Field_ID", [VInt 1; VInt 2; VInt 3]);
          ("Elevation", [VFloat plus_12_5; VFloat S754_nan; VFloat half]);
          ("Crop_type", [VStr "wheat "; VStr "Wheat"; VStr "tea"]);
          ("Annual_yield", [VFloat half; VFloat plus_12_5; VFloat half])].

(** [corrected] joined with [station_map]: field 1 has two stations and
    fills two rows, field 2 has none, so the two appended columns hold a
    NaN and are [float64]. *)
Definition joined : DataFrame :=
  mkDF 4 [("Field_ID", [VInt 1; VInt 1; VInt 2; VInt 3]);
          ("Elevation", [VFloat plus_12_5; VFloat plus_12_5; VFloat S754_nan;
                         VFloat half]);
          ("Crop_type", [VStr "wheat "; VStr "wheat "; VStr "Wheat"; VStr "tea"]);
          ("Annual_yield", [VFloat half; VFloat half; VFloat plus_12_5;
                            VFloat half]);
          ("Unnamed: 0", [VFloat f0; VFloat f1; NaN; VFloat f2]);
          ("Weather_station", [VFloat f4; VFloat f0; NaN; VFloat f2])].

(** [joined] without the index column: what [process] leaves in [df]. *)
Definition finalized : DataFrame :=
  mkDF 4 [("Field_ID", [VInt 1; VInt 1; VInt 2; VInt 3]);
          ("Elevation", [VFloat plus_12_5; VFloat plus_12_5; VFloat S754_nan;
                         VFloat half]);
          ("Crop_type", [VStr "wheat "; VStr "wheat "; VStr "Wheat"; VStr "tea"]);
          ("Annual_yield", [VFloat half; VFloat half; VFloat plus_12_5;
                            VFloat half]);
          ("Weather_station", [VFloat f4; VFloat f0; NaN; VFloat f2])].

(** [corrected] joined with a mapping that lists fields 1 and 3 once. *)
Definition joined_no_index : DataFrame :=
  mkDF 3 [("Field_ID", [VInt 1; VInt 2; VInt 3]);
          ("Elevation", [VFloat plus_12_5; VFloat S754_nan; VFloat half]);
          ("Crop_type", [VStr "wheat "; VStr "Wheat"; VStr "tea"]);
          ("Annual_yield", [VFloat half; VFloat plus_12_5; VFloat half]);
          ("Weather_station", [VFloat f4; NaN; VFloat f2])].

(** [corrected] joined with a mapping that has no row, index column
    dropped. *)
Definition finalized_no_rows : DataFrame :=
  mkDF 3 [("Field_ID", [VInt 1; VInt 2; VInt 3]);
          ("Elevation", [VFloat plus_12_5; VFloat S754_nan; VFloat half]);
          ("Crop_type", [VStr "wheat "; VStr "Wheat"; VStr "tea"]);
          ("Annual_yield", [VFloat half; VFloat plus_12_5; VFloat half]);
          ("Weather_station", [NaN; NaN; NaN])].

(** The instance after a successful ingestion, holding table [d]. *)
Definition running (d : DataFrame) : FieldDataProcessor :=
  set_df d (set_engine (mkEngine "sqlite:///farm.db") pipeline).

(** The outside calls of one run of [process]. *)
Definition run_calls : list event :=
  [Connect "sqlite:///farm.db"; Query "SELECT * FROM fields"; Fetch url].

End Sample.

(** ** Tactics for concrete tables *)

(** Membership in a list given in full. *)
Ltac in_list := apply (bool_decide_unpack _); vm_compute; exact I.

(** A concrete column is numeric. *)
Ltac all_numeric :=
  repeat constructor; unfold in_int64, int64_min, int64_max; simpl; lia.

(** ** Further notions and samples *)

(** What a one-way rename of [A] to [B] does to a label. *)
Definition rename_one (A B c : string) : string :=
  if decide (c = A) then B else c.

(** [base] followed by [k] underscores: the names the placeholder loop
    tries, in order. *)
Fixpoint underscored (k : nat) (base : string) : string :=
  match k with
  | O => base
  | S k' => underscored k' (base +:+ "_")
  end.

(** An instance whose [columns_to_rename] is the empty dict. *)
Definition no_pair : FieldDataProcessor :=
  set_df Sample.abc
    (init "sqlite:///farm.db" "SELECT * FROM fields" [] ∅ Sample.url).

(** A field table that has no Crop_type column. *)
Definition no_crop : DataFrame :=
  mkDF 2 [("Field_ID", [VInt 1; VInt 2]);
          ("Elevation", [VFloat Sample.minus_12_5; VFloat Sample.half])].

(** [no_crop] with the magnitudes of its elevations. *)
Definition no_crop_magnitudes : DataFrame :=
  mkDF 2 [("Field_ID", [VInt 1; VInt 2]);
          ("Elevation", [VFloat Sample.plus_12_5; VFloat Sample.half])].

(** The key column of a left join: every left key in its place, once per
    partner and once when it has none; the partners are counted on the
    keys as the join compares them. *)
Definition repeated_keys (lk rk : list value) : list value :=
  flat_map (fun kk : value * value =>
              replicate (partners kk.2 (common_keys lk rk).2 `max` 1)%nat kk.1)
           (zip lk (common_keys lk rk).1).

(** The five configured attributes of two instances agree. *)
Definition same_config (p q : FieldDataProcessor) : Prop :=
  db_path p = db_path q /\ sql_query p = sql_query q /\
  columns_to_rename p = columns_to_rename q /\
  values_to_rename p = values_to_rename q /\
  weather_map_data p = weather_map_data q.

(** The outside calls of a complete run, in their order. *)
Definition gateway_calls (p : FieldDataProcessor) : list event :=
  [Connect (db_path p); Query (sql_query p); Fetch (weather_map_data p)].

(** The row count of a table and the lengths of its columns. *)
Definition shape (d : DataFrame) : nat * list nat :=
  (nrows d, length <$> (cols d).*2).

(** ** The logger of the class

    [logging.getLogger(name)] gives the same object for the same name, and
    the name is built from the module's, so every instance of the class
    configures one shared logger.  [initialize_logging] is therefore a
    function of that logger; [str.upper] is a variable of the section. *)

Module Logging.

Record Handler := mkHandler { fmt : string }.

Record Logger := mkLogger {
  propagate : bool;
  disabled : bool;
  level : Z;
  handlers : list Handler
}.

Definition NOTSET : Z := 0.
Definition DEBUG : Z := 10.
Definition INFO : Z := 20.

(** A logger as [getLogger] creates it. *)
Definition new_logger : Logger := mkLogger true false NOTSET [].

(** The [StreamHandler] with the formatter of lines 46-48. *)
Definition console : Handler :=
  mkHandler "%(asctime)s - %(name)s - %(levelname)s - %(message)s".

Section Levels.
Variable upper : string -> string.

(** The [if]/[elif] chain of lines 32-40: [None] is the early return. *)
Definition log_level_of (logging_level : string) : option Z :=
  if decide (upper logging_level = "DEBUG") then Some DEBUG
  else if decide (upper logging_level = "INFO") then Some INFO
  else if decide (upper logging_level = "NONE") then None
  else Some INFO.

(** [initialize_logging] *)
Definition initialize_logging (logging_level : string) (lg : Logger) : Logger :=
  let lg := mkLogger false (disabled lg) (level lg) (handlers lg) in
  match log_level_of logging_level with
  | None => mkLogger (propagate lg) true (level lg) (handlers lg)
  | Some log_level =>
      let lg := mkLogger (propagate lg) (disabled lg) log_level (handlers lg) in
      match handlers lg with
      | [] => mkLogger (propagate lg) (disabled lg) (level lg)
                (handlers lg ++ [console])
      | _ :: _ => lg
      end
  end.

(** One instance after the other, each with its own [logging_level]. *)
Definition instantiate (logging_levels : list string) (lg : Logger) : Logger :=
  foldl (fun lg logging_level => initialize_logging logging_level lg)
        lg logging_levels.

(** The instantiations that ask for no logging. *)
Definition asks_none (logging_level : string) : bool :=
  bool_decide (upper logging_level = "NONE").

End Levels.

End Logging.

(** * Properties *)

(** ** The placeholder loop terminates with a free name *)

Lemma string_length_app (s t : string) :
  String.length (s +:+ t) = (String.length s + String.length t)%nat.
Proof. induction s as [|a s IH]; simpl; [done | by rewrite IH]. Qed.

Lemma at_least_succ_lt (t : string) (names : list string) :
  t ∈ names ->
  (length (at_least (S (String.length t)) names)
   < length (at_least (String.length t) names))%nat.
Proof.
  unfold at_least. induction names as [|s names IH]; intros Hin.
  - by apply elem_of_nil in Hin.
  - rewrite !filter_cons.
    assert (Hmono : (length (filter (fun s => (S (String.length t) <= String.length s)%nat) names)
                     <= length (filter (fun s => (String.length t <= String.length s)%nat) names))%nat).
    { clear. induction names as [|u names IH]; [done|].
      rewrite !filter_cons. repeat case_decide; simpl; lia. }
    apply elem_of_cons in Hin as [->|Hin].
    + rewrite decide_False by lia. rewrite decide_True by lia. simpl. lia.
    + specialize (IH Hin). repeat case_decide; simpl; lia.
Qed.

Lemma fresh_name_sound (fuel : nat) (names : list string) (t : string) :
  (length (at_least (String.length t) names) <= fuel)%nat ->
  exists t', fresh_name fuel names t = Some t' /\ t' ∉ names.
Proof.
  revert t. induction fuel as [|fuel IH]; intros t Hfuel; simpl.
  - case_bool_decide as Hin; [|eauto].
    pose proof (at_least_succ_lt t names Hin). lia.
  - case_bool_decide as Hin; [|eauto].
    apply IH. rewrite string_length_app. simpl.
    pose proof (at_least_succ_lt t names Hin).
    replace (String.length t + 1)%nat with (S (String.length t)) by lia. lia.
Qed.

Lemma fresh_name_total (names : list string) :
  exists t, temp_name_for names = Some t /\ t ∉ names.
Proof.
  apply fresh_name_sound. unfold at_least. apply length_filter.
Qed.

(** ** The column swap *)

Section Swap.
Context (A B temp : string) (d : DataFrame).
Hypothesis HA : A ∈ columns d.
Hypothesis HB : B ∈ columns d.
Hypothesis Htemp : temp ∉ columns d.

Lemma temp_neq_A : temp ≠ A.
Proof. intros ->. done. Qed.

Lemma temp_neq_B : temp ≠ B.
Proof. intros ->. done. Qed.

(** On the labels of the table the two renames compose to the swap. *)
Lemma two_renames_label (c : string) :
  c ∈ columns d ->
  rename_label {[temp := B]}
    (rename_label (<[B := A]> {[A := temp]}) c) = swap_label A B c.
Proof using HA HB Htemp.
  intros Hc. pose proof temp_neq_A. pose proof temp_neq_B.
  assert (c ≠ temp) by (intros ->; done).
  unfold rename_label, swap_label.
  destruct (decide (c = B)) as [->|HcB].
  - rewrite lookup_insert_eq. simpl.
    by rewrite lookup_singleton_ne.
  - rewrite lookup_insert_ne by done.
    destruct (decide (c = A)) as [->|HcA].
    + rewrite lookup_singleton_eq. simpl. by rewrite lookup_singleton_eq.
    + rewrite lookup_singleton_ne by done. simpl.
      by rewrite lookup_singleton_ne.
Qed.

Lemma two_renames :
  swap_step2 B temp (swap_step1 A B temp d) = relabel (swap_label A B) d.
Proof using HA HB Htemp.
  unfold swap_step2, swap_step1, rename, relabel. simpl. f_equal.
  rewrite <- list_fmap_compose.
  apply list_fmap_ext. intros i [c s] Hcs. simpl. f_equal.
  apply two_renames_label. unfold columns.
  apply list_elem_of_fmap. exists (c, s). split; [done|].
  by apply list_elem_of_lookup_2 in Hcs.
Qed.
End Swap.

Lemma swap_label_involutive (A B c : string) :
  swap_label A B (swap_label A B c) = c.
Proof. unfold swap_label. repeat case_decide; congruence. Qed.

Lemma swap_label_A (A B : string) : swap_label A B B = A.
Proof. unfold swap_label. by rewrite decide_True. Qed.

Lemma swap_label_B (A B : string) : swap_label A B A = B.
Proof. unfold swap_label. repeat case_decide; congruence. Qed.

Lemma swap_label_other (A B c : string) :
  c ≠ A -> c ≠ B -> swap_label A B c = c.
Proof. intros. unfold swap_label. by rewrite !decide_False. Qed.

Lemma relabel_columns (f : string -> string) (d : DataFrame) :
  columns (relabel f d) = f <$> columns d.
Proof.
  unfold columns, relabel. simpl. rewrite <- !list_fmap_compose.
  apply list_fmap_ext. by intros i [c s].
Qed.

Lemma relabel_data (f : string -> string) (d : DataFrame) :
  (cols (relabel f d)).*2 = (cols d).*2.
Proof.
  unfold relabel. simpl. rewrite <- !list_fmap_compose.
  apply list_fmap_ext. by intros i [c s].
Qed.

Lemma relabel_relabel (f g : string -> string) (d : DataFrame) :
  relabel f (relabel g d) = relabel (f ∘ g) d.
Proof.
  unfold relabel. simpl. f_equal. rewrite <- list_fmap_compose.
  apply list_fmap_ext. by intros i [c s].
Qed.

Lemma relabel_id (f : string -> string) (d : DataFrame) :
  (forall c, f c = c) -> relabel f d = d.
Proof.
  intros Hf. destruct d as [n cs]. unfold relabel. simpl. f_equal.
  induction cs as [|[c s] cs IH]; [done|].
  rewrite fmap_cons. simpl. by rewrite Hf, IH.
Qed.

(** Under a relabelling that is its own inverse, the data found under
    [c] afterwards is the data that was under [f c]. *)
Lemma select_relabel (f : string -> string) (d : DataFrame) (c : string) :
  (forall x, f (f x) = x) ->
  select (relabel f d) c = select d (f c).
Proof.
  intros Hf. unfold select, relabel. simpl.
  induction (cols d) as [|[l s] cs IH]; [done|].
  rewrite fmap_cons, !filter_cons. simpl.
  destruct (decide (f l = c)) as [Heq|Hne].
  - rewrite decide_True by (by rewrite <- Heq, Hf).
    rewrite !fmap_cons. simpl. by rewrite IH.
  - rewrite decide_False; [done|]. intros ->. by rewrite Hf in Hne.
Qed.

Lemma swap_label_elem (A B : string) (d : DataFrame) (c : string) :
  A ∈ columns d -> B ∈ columns d -> c ∈ columns d ->
  swap_label A B c ∈ columns d.
Proof. intros. unfold swap_label. by repeat case_decide. Qed.

Lemma set_df_same (this : FieldDataProcessor) (d : DataFrame) :
  df this = Some d -> set_df d this = this.
Proof. destruct this. simpl. by intros ->. Qed.

Lemma set_df_set_df (this : FieldDataProcessor) (d d' : DataFrame) :
  set_df d' (set_df d this) = set_df d' this.
Proof. done. Qed.

(** [rename_columns] unfolded on a machine that has a table and a pair. *)
Lemma rename_columns_run (this : FieldDataProcessor) (d : DataFrame)
    (A B temp : string) (rest : list (string * string)) (tr : list event) :
  columns_to_rename this = (A, B) :: rest ->
  df this = Some d ->
  temp_name_for (columns d) = Some temp ->
  rename_columns (mkMachine this tr)
  = (Ok tt, mkMachine (set_df (swap_step2 B temp (swap_step1 A B temp d)) this) tr).
Proof.
  intros Hpair Hdf Htemp. unfold rename_columns, mbind, M_bind, get_self.
  simpl. by rewrite Hpair, Hdf, Htemp.
Qed.

(** With a table and a pair, [rename_columns] returns: whether the two
    labels are in the table is never looked at. *)
Lemma rename_columns_returns (this : FieldDataProcessor) (d : DataFrame)
    (A B : string) (rest : list (string * string)) (tr : list event) :
  columns_to_rename this = (A, B) :: rest ->
  df this = Some d ->
  exists d', rename_columns (mkMachine this tr)
             = (Ok tt, mkMachine (set_df d' this) tr).
Proof.
  intros Hpair Hdf.
  destruct (fresh_name_total (columns d)) as (temp & Htemp & _).
  eexists. by eapply rename_columns_run.
Qed.

Lemma rename_columns_relabel (this : FieldDataProcessor) (d : DataFrame)
    (A B : string) (rest : list (string * string)) (tr : list event) :
  columns_to_rename this = (A, B) :: rest ->
  df this = Some d ->
  A ∈ columns d -> B ∈ columns d ->
  exists temp,
    temp_name_for (columns d) = Some temp /\ (temp ∉ columns d) /\
    rename_columns (mkMachine this tr)
    = (Ok tt, mkMachine (set_df (relabel (swap_label A B) d) this) tr).
Proof.
  intros Hpair Hdf HA HB.
  destruct (fresh_name_total (columns d)) as (temp & Htemp & Hfresh).
  exists temp. split; [done|]. split; [done|].
  erewrite rename_columns_run by done.
  by rewrite two_renames.
Qed.

(** C2: on a table that has both columns of the configured pair (A, B),
    [rename_columns] returns, and afterwards the data under A is the data
    that was under B and the data under B is the data that was under A;
    every other column keeps its place, its name and its data; no data and
    no row or column count changes; the names in use are the same as
    before; and the placeholder that the loop chose names no column. *)
Theorem rename_columns_swaps (this : FieldDataProcessor) (d : DataFrame)
    (A B : string) (rest : list (string * string)) (tr : list event) :
  columns_to_rename this = (A, B) :: rest ->
  df this = Some d ->
  A ∈ columns d -> B ∈ columns d ->
  exists d' temp,
    rename_columns (mkMachine this tr) = (Ok tt, mkMachine (set_df d' this) tr) /\
    temp_name_for (columns d) = Some temp /\
    select d' A = select d B /\
    select d' B = select d A /\
    (forall c, c ≠ A -> c ≠ B -> select d' c = select d c) /\
    (forall i c s, cols d !! i = Some (c, s) -> c ≠ A -> c ≠ B ->
                   cols d' !! i = Some (c, s)) /\
    (cols d').*2 = (cols d).*2 /\
    length (cols d') = length (cols d) /\
    nrows d' = nrows d /\
    (forall c, c ∈ columns d' <-> c ∈ columns d) /\
    temp ∉ columns d'.
Proof.
  intros Hpair Hdf HA HB.
  destruct (rename_columns_relabel this d A B rest tr) as (temp & Ht & Hfresh & Hrun);
    try done.
  exists (relabel (swap_label A B) d), temp.
  pose proof (swap_label_involutive A B) as Hinv.
  assert (Hnames : forall c, c ∈ columns (relabel (swap_label A B) d)
                             <-> c ∈ columns d).
  { intros c. rewrite relabel_columns, list_elem_of_fmap. split.
    - intros (c' & -> & Hc'). by apply swap_label_elem.
    - intros Hc. exists (swap_label A B c). split; [by rewrite Hinv|].
      by apply swap_label_elem. }
  repeat split; try done; try apply Hnames.
  - by rewrite select_relabel, swap_label_B.
  - by rewrite select_relabel, swap_label_A.
  - intros c HcA HcB. by rewrite select_relabel, swap_label_other.
  - intros i c s Hi HcA HcB. unfold relabel. simpl.
    rewrite list_lookup_fmap, Hi. simpl. by rewrite swap_label_other.
  - apply relabel_data.
  - unfold relabel. simpl. by rewrite length_fmap.
  - intros Hin%Hnames. by apply Hfresh.
Qed.

(** The scenario of the specification: columns [A, B, C] and the pair
    (A, B). *)
Lemma rename_columns_swaps_witness :
  exists d' temp,
    rename_columns (mkMachine (Sample.swapper Sample.abc) [])
    = (Ok tt, mkMachine (set_df d' (Sample.swapper Sample.abc)) []) /\
    temp_name_for (columns Sample.abc) = Some temp /\
    select d' "A" = select Sample.abc "B" /\
    select d' "B" = select Sample.abc "A" /\
    (forall c, c ≠ "A" -> c ≠ "B" -> select d' c = select Sample.abc c) /\
    (forall i c s, cols Sample.abc !! i = Some (c, s) -> c ≠ "A" -> c ≠ "B" ->
                   cols d' !! i = Some (c, s)) /\
    (cols d').*2 = (cols Sample.abc).*2 /\
    length (cols d') = length (cols Sample.abc) /\
    nrows d' = nrows Sample.abc /\
    (forall c, c ∈ columns d' <-> c ∈ columns Sample.abc) /\
    temp ∉ columns d'.
Proof.
  apply (rename_columns_swaps (Sample.swapper Sample.abc) Sample.abc "A" "B" [] []).
  - reflexivity.
  - reflexivity.
  - in_list.
  - in_list.
Defined.

(** C8: on a table that has both columns of the configured pair, running
    [rename_columns] twice returns and leaves the instance, hence the
    names, the order and the data of the table, exactly as it was. *)
Theorem rename_columns_twice (this : FieldDataProcessor) (d : DataFrame)
    (A B : string) (rest : list (string * string)) (tr : list event) :
  columns_to_rename this = (A, B) :: rest ->
  df this = Some d ->
  A ∈ columns d -> B ∈ columns d ->
  (rename_columns;; rename_columns) (mkMachine this tr)
  = (Ok tt, mkMachine this tr).
Proof.
  intros Hpair Hdf HA HB.
  destruct (rename_columns_relabel this d A B rest tr) as (temp & _ & _ & Hrun);
    try done.
  set (d' := relabel (swap_label A B) d) in *.
  assert (HA' : A ∈ columns d').
  { unfold d'. rewrite relabel_columns. apply list_elem_of_fmap.
    exists B. by rewrite swap_label_A. }
  assert (HB' : B ∈ columns d').
  { unfold d'. rewrite relabel_columns. apply list_elem_of_fmap.
    exists A. by rewrite swap_label_B. }
  destruct (rename_columns_relabel (set_df d' this) d' A B rest tr)
    as (temp' & _ & _ & Hrun'); try done.
  unfold mbind, M_bind. rewrite Hrun, Hrun'.
  rewrite set_df_set_df. unfold d'. rewrite relabel_relabel.
  rewrite relabel_id by apply swap_label_involutive.
  by rewrite set_df_same.
Qed.

(** The same table, swapped twice. *)
Lemma rename_columns_twice_witness :
  (rename_columns;; rename_columns) (mkMachine (Sample.swapper Sample.abc) [])
  = (Ok tt, mkMachine (Sample.swapper Sample.abc) []).
Proof.
  apply (rename_columns_twice (Sample.swapper Sample.abc) Sample.abc "A" "B" [] []).
  - reflexivity.
  - reflexivity.
  - in_list.
  - in_list.
Defined.

(** C7: with the pair (A, B) configured, [rename_columns] on a table
    without B returns normally and leaves the column that was A named B;
    on a table with neither column it returns normally and changes
    nothing.  No exception is raised in either case. *)
Theorem rename_columns_absent_column_returns :
  rename_columns (mkMachine (Sample.swapper Sample.ac) [])
  = (Ok tt,
     mkMachine (Sample.swapper
                  (mkDF 2 [("B", [VInt 1; VInt 2]);
                           ("C", [VFloat Sample.plus_12_5; VFloat S754_nan])])) [])
  /\ rename_columns (mkMachine (Sample.swapper Sample.c_only) [])
     = (Ok tt, mkMachine (Sample.swapper Sample.c_only) []).
Proof. split; vm_compute; reflexivity. Qed.

(** ** The join stage before ingestion *)

(** C10: when no table has been ingested ([df] is still [None]),
    [weather_station_mapping] returns [None] without raising, whatever the
    outside world would answer; the instance is unchanged and the trace of
    outside calls gains nothing, so nothing was fetched and nothing
    merged. *)
Theorem weather_station_mapping_without_table (w : World)
    (this : FieldDataProcessor) (tr : list event) :
  df this = None ->
  weather_station_mapping w (mkMachine this tr) = (Ok None, mkMachine this tr).
Proof.
  intros Hdf. unfold weather_station_mapping, mbind, M_bind, get_self.
  simpl. by rewrite Hdf.
Qed.

(** A fresh instance in a world where every outside call would fail. *)
Lemma weather_station_mapping_without_table_witness :
  weather_station_mapping Sample.offline (mkMachine Sample.pipeline [])
  = (Ok None, mkMachine Sample.pipeline []).
Proof.
  apply (weather_station_mapping_without_table Sample.offline Sample.pipeline []).
  reflexivity.
Defined.

(** ** Absolute values *)

Lemma wrap64_abs (z : Z) :
  in_int64 z ->
  wrap64 (Z.abs z) = if decide (z = int64_min) then int64_min else Z.abs z.
Proof.
  unfold in_int64, wrap64, int64_min, int64_max. intros Hz.
  case_decide as Hmin.
  - subst z. reflexivity.
  - assert (0 <= Z.abs z < 2 ^ 63) by lia.
    rewrite Z.mod_small by lia. lia.
Qed.

Lemma abs_value_magnitude (v : value) :
  numeric v -> exists v', abs_value v = Ok v' /\ magnitude v v'.
Proof.
  destruct v as [|z|f|s]; simpl; try done.
  - intros Hz. eexists. split; [done|]. by rewrite wrap64_abs.
  - intros _. by eexists.
Qed.

Lemma magnitude_ge0 (v v' : value) :
  numeric v -> magnitude v v' ->
  is_nan v = false -> v ≠ VInt int64_min -> ge0 v' = true.
Proof.
  destruct v as [|z|f|s]; simpl; try done.
  - intros Hz -> _ Hmin. rewrite decide_False by congruence.
    simpl. apply Z.leb_le. lia.
  - intros _ -> Hnan _. by destruct f as [[]|[]| |[] m e].
Qed.

Lemma magnitude_of_nonneg (v v' : value) :
  magnitude v v' -> ge0 v = true ->
  veq v' v = true /\ (v ≠ VFloat (S754_zero true) -> v' = v).
Proof.
  destruct v as [|z|f|s]; simpl; try done.
  - intros -> Hz%Z.leb_le.
    rewrite decide_False by (unfold int64_min; lia).
    rewrite Z.abs_eq by done. split; [apply Z.eqb_refl | done].
  - intros -> Hge.
    destruct f as [[]|[]| |[] m e]; simpl in *; try done.
    unfold SFeqb, SFcompare. rewrite Z.compare_refl.
    by rewrite Pos.compare_cont_refl.
Qed.

(** ** Mapping with exceptions *)

Lemma mapR_Forall2 {A B} (f : A -> result B) (l : list A) (l' : list B) :
  mapR f l = Ok l' -> Forall2 (fun x y => f x = Ok y) l l'.
Proof.
  revert l'. induction l as [|x l IH]; intros l'; simpl.
  - intros [= <-]. constructor.
  - destruct (f x) as [y|e] eqn:Hx; [|done].
    destruct (mapR f l) as [ys|e]; [|done].
    intros [= <-]. constructor; auto.
Qed.

Lemma mapR_total {A B} (f : A -> result B) (l : list A) :
  Forall (fun x => exists y, f x = Ok y) l -> exists l', mapR f l = Ok l'.
Proof.
  induction 1 as [|x l [y Hy] _ [l' IH]]; simpl; [by eexists|].
  rewrite Hy, IH. by eexists.
Qed.

Lemma series_abs_total (s : Series) :
  Forall numeric s -> exists s', series_abs s = Ok s'.
Proof.
  intros Hs. apply mapR_total. eapply Forall_impl; [done|].
  intros v Hv. destruct (abs_value_magnitude v Hv) as (v' & ? & _). eauto.
Qed.

Lemma series_abs_magnitude (s s' : Series) :
  Forall numeric s -> series_abs s = Ok s' -> Forall2 magnitude s s'.
Proof.
  intros Hs Habs%mapR_Forall2. revert Hs.
  induction Habs as [|v v' s s' Hv _ IH]; intros Hs; [constructor|].
  apply Forall_cons in Hs as [Hnum Hs]. constructor; [|auto].
  destruct (abs_value_magnitude v Hnum) as (v'' & Hv'' & Hmag). congruence.
Qed.

(** ** Updating one column *)

Lemma has_label_select (d : DataFrame) (c : string) :
  has_label d c = true <-> select d c ≠ [].
Proof.
  unfold has_label, select, columns. rewrite bool_decide_eq_true.
  induction (cols d) as [|[l s] cs IH]; simpl.
  - split; [by intros ?%elem_of_nil | done].
  - rewrite filter_cons. simpl. destruct (decide (l = c)) as [->|Hne].
    + split; [done | intros _; apply list_elem_of_here].
    + rewrite elem_of_cons, IH. split; [intros [?|?]|intros ?]; [congruence|done|by right].
Qed.

Lemma select_map_column_eq (c : string) (g : Series -> Series) (d : DataFrame) :
  select (map_column c g d) c = g <$> select d c.
Proof.
  unfold select, map_column. simpl.
  induction (cols d) as [|[l s] cs IH]; [done|].
  rewrite fmap_cons, !filter_cons. simpl.
  destruct (decide (l = c)) as [->|Hne]; simpl.
  - rewrite decide_True by done. rewrite !fmap_cons. simpl. by rewrite IH.
  - by rewrite decide_False.
Qed.

Lemma select_map_column_ne (c c' : string) (g : Series -> Series) (d : DataFrame) :
  c' ≠ c -> select (map_column c g d) c' = select d c'.
Proof.
  intros Hne. unfold select, map_column. simpl.
  induction (cols d) as [|[l s] cs IH]; [done|].
  rewrite fmap_cons, !filter_cons. simpl.
  destruct (decide (l = c)) as [->|Hlc]; simpl.
  - by rewrite !decide_False by done.
  - destruct (decide (l = c')); [|done]. rewrite !fmap_cons. by rewrite IH.
Qed.

Lemma columns_map_column (c : string) (g : Series -> Series) (d : DataFrame) :
  columns (map_column c g d) = columns d.
Proof.
  unfold columns, map_column. simpl. rewrite <- list_fmap_compose.
  apply list_fmap_ext. intros i [l s] _. simpl. by case_decide.
Qed.

(** The failing [abs] assignment agrees with [map_column] when it
    succeeds. *)
Lemma abs_column_of_ok (c : string) (d d' : DataFrame) :
  abs_column_of c d = Ok d' ->
  nrows d' = nrows d /\ columns d' = columns d /\
  Forall2 (fun s s' => series_abs s = Ok s') (select d c) (select d' c) /\
  (forall c', c' ≠ c -> select d' c' = select d c').
Proof.
  unfold abs_column_of. destruct (has_label d c); [|done].
  destruct (mapR _ (cols d)) as [cs|e] eqn:Hmap; [|done].
  intros [= <-]. simpl. split; [done|].
  apply mapR_Forall2 in Hmap. unfold columns, select. simpl.
  induction Hmap as [|[l s] [l' s'] cs cs' Hp _ IH]; [done|].
  simpl in Hp. destruct IH as (IH1 & IH2 & IH3).
  assert (Hl : l' = l) by (destruct (decide (l = c)); [destruct (series_abs s)|];
                          congruence).
  subst l'. rewrite !fmap_cons. simpl. split; [by rewrite IH1|].
  rewrite !filter_cons. simpl. split.
  - destruct (decide (l = c)) as [->|Hne]; [|done].
    rewrite !fmap_cons. simpl. constructor; [|done].
    destruct (series_abs s); congruence.
  - intros c' Hc'. rewrite !filter_cons. simpl.
    destruct (decide (l = c')) as [->|Hne]; [|by apply IH3].
    rewrite decide_False in Hp by done. injection Hp as <-.
    rewrite !fmap_cons. simpl. by rewrite IH3.
Qed.

Lemma abs_column_of_total (c : string) (d : DataFrame) :
  select d c ≠ [] -> Forall (Forall numeric) (select d c) ->
  exists d', abs_column_of c d = Ok d'.
Proof.
  intros Hlabel%has_label_select Hnum. unfold abs_column_of. rewrite Hlabel.
  destruct (mapR_total
              (fun p : string * Series =>
                 if decide (p.1 = c)
                 then match series_abs p.2 with
                      | Ok s => Ok (p.1, s)
                      | Raise e => Raise e
                      end
                 else Ok p) (cols d)) as [cs Hcs].
  - unfold select in Hnum. clear Hlabel.
    induction (cols d) as [|[l s] cs IH]; [constructor|].
    rewrite filter_cons in Hnum. simpl in Hnum. constructor.
    + simpl. destruct (decide (l = c)); [|by eexists].
      rewrite fmap_cons in Hnum. apply Forall_cons in Hnum as [Hs _].
      destruct (series_abs_total s Hs) as [s' ->]. by eexists.
    + apply IH. destruct (decide (l = c)); [|done].
      rewrite fmap_cons in Hnum. by apply Forall_cons in Hnum as [_ ?].
  - rewrite Hcs. by eexists.
Qed.

(** ** [apply_corrections] *)

Lemma apply_corrections_run (this : FieldDataProcessor) (d d1 : DataFrame)
    (cn ac : string) (c1 : Series) (tr : list event) :
  df this = Some d ->
  abs_column_of ac d = Ok d1 ->
  select d1 cn = [c1] ->
  apply_corrections cn ac (mkMachine this tr)
  = (Ok tt,
     mkMachine (set_df (map_column cn (fmap (get_default (values_to_rename this))) d1)
                       this) tr).
Proof.
  intros Hdf Habs Hsel. unfold apply_corrections, mbind, M_bind, get_self, lift.
  simpl. rewrite Hdf, Habs. simpl. unfold apply_column. by rewrite Hsel.
Qed.

Lemma select_singleton_Forall2 {P : Series -> Series -> Prop}
    (s : Series) (l' : list Series) :
  Forall2 P [s] l' -> exists s', l' = [s'] /\ P s s'.
Proof.
  intros H. inversion H as [|? s' ? l'' Hs Hnil]; subst.
  inversion Hnil; subst. eauto.
Qed.

(** The sample after correction: -12.5 became 12.5, the missing elevation
    is still missing, 0.5 is unchanged. *)
Example apply_corrections_sample :
  apply_corrections "Crop_type" "Elevation"
    (mkMachine (set_df Sample.fields_swapped Sample.pipeline) [])
  = (Ok tt, mkMachine (set_df Sample.corrected Sample.pipeline) []).
Proof. vm_compute. reflexivity. Qed.

(** C1 as stated fails: a missing elevation is NaN before and after the
    correction, and [NaN >= 0] is false. *)
Lemma elevation_nonneg_as_stated_fails :
  apply_corrections "Crop_type" "Elevation"
    (mkMachine (set_df Sample.fields_swapped Sample.pipeline) [])
  = (Ok tt, mkMachine (set_df Sample.corrected Sample.pipeline) [])
  /\ select Sample.corrected "Elevation"
     = [[VFloat Sample.plus_12_5; VFloat S754_nan; VFloat Sample.half]]
  /\ ge0 (VFloat S754_nan) = false
  /\ ~ elevation_nonneg_as_stated.
Proof.
  split; [exact apply_corrections_sample|].
  split; [reflexivity|]. split; [reflexivity|].
  intros H.
  specialize (H (set_df Sample.fields_swapped Sample.pipeline)
                Sample.fields_swapped Sample.corrected [] eq_refl
                apply_corrections_sample
                [VFloat Sample.plus_12_5; VFloat S754_nan; VFloat Sample.half]
                (VFloat S754_nan)).
  assert (Hfalse : ge0 (VFloat S754_nan) = true).
  { apply H; in_list. }
  discriminate Hfalse.
Qed.

(** The least int64 is the other value that stays negative. *)
Example apply_corrections_int64_min :
  apply_corrections "Crop_type" "Elevation"
    (mkMachine (set_df Sample.fields_int Sample.pipeline) [])
  = (Ok tt,
     mkMachine
       (set_df
          (mkDF 2 [("Field_ID", [VInt 1; VInt 2]);
                   ("Elevation", [VInt 5; VInt int64_min]);
                   ("Crop_type", [VStr "tea"; VStr "rice"])])
          Sample.pipeline) [])
  /\ ge0 (VInt int64_min) = false.
Proof. split; vm_compute; reflexivity. Qed.

(** ** Canonicalization *)

Lemma get_default_unmapped (mapping : gmap string string) (v : value) :
  (forall k, v = VStr k -> mapping !! k = None) -> get_default mapping v = v.
Proof.
  intros H. destruct v as [|z|f|k]; try done.
  simpl. by rewrite (H k).
Qed.

(** C3: when line 114 of [apply_corrections] runs on a table whose
    designated column is [c1], the method returns and the column becomes
    [c2], of the same length, where a value that is a key of the mapping
    is replaced by what the mapping gives for it and any other value
    stays as it is; the lookup compares whole strings, so a value that
    differs from every key, be it by a trailing space, is not a key.  No
    other column changes. *)
Theorem apply_corrections_canonicalizes (this : FieldDataProcessor)
    (d d1 : DataFrame) (cn ac : string) (c1 : Series) (tr : list event) :
  df this = Some d ->
  abs_column_of ac d = Ok d1 ->
  select d1 cn = [c1] ->
  exists d2 c2,
    apply_corrections cn ac (mkMachine this tr)
    = (Ok tt, mkMachine (set_df d2 this) tr) /\
    select d2 cn = [c2] /\
    length c2 = length c1 /\
    (forall i k t, c1 !! i = Some (VStr k) ->
                   values_to_rename this !! k = Some t ->
                   c2 !! i = Some (VStr t)) /\
    (forall i v, c1 !! i = Some v ->
                 (forall k, v = VStr k -> values_to_rename this !! k = None) ->
                 c2 !! i = Some v) /\
    (forall c', c' ≠ cn -> select d2 c' = select d1 c') /\
    columns d2 = columns d1.
Proof.
  intros Hdf Habs Hsel.
  eexists _, (get_default (values_to_rename this) <$> c1).
  split; [by eapply apply_corrections_run|].
  split; [by rewrite select_map_column_eq, Hsel|].
  split; [by rewrite length_fmap|].
  split; [|split; [|split]].
  - intros i k t Hi Hk. rewrite list_lookup_fmap, Hi. simpl. by rewrite Hk.
  - intros i v Hi Hv. rewrite list_lookup_fmap, Hi. simpl.
    by rewrite get_default_unmapped.
  - intros c' Hc'. by apply select_map_column_ne.
  - apply columns_map_column.
Qed.

(** The swapped sample table under the mapping [{"wheat": "Wheat"}]. *)
Lemma apply_corrections_canonicalizes_witness :
  exists d2 c2,
    apply_corrections "Crop_type" "Elevation"
      (mkMachine (set_df Sample.fields_swapped Sample.pipeline) [])
    = (Ok tt, mkMachine (set_df d2 (set_df Sample.fields_swapped Sample.pipeline)) []) /\
    select d2 "Crop_type" = [c2] /\
    length c2 = length [VStr "wheat "; VStr "wheat"; VStr "tea"] /\
    (forall i k t, [VStr "wheat "; VStr "wheat"; VStr "tea"] !! i = Some (VStr k) ->
                   values_to_rename (set_df Sample.fields_swapped Sample.pipeline) !! k
                   = Some t ->
                   c2 !! i = Some (VStr t)) /\
    (forall i v, [VStr "wheat "; VStr "wheat"; VStr "tea"] !! i = Some v ->
                 (forall k, v = VStr k ->
                            values_to_rename (set_df Sample.fields_swapped Sample.pipeline) !! k
                            = None) ->
                 c2 !! i = Some v) /\
    (forall c', c' ≠ "Crop_type" -> select d2 c' = select Sample.magnitudes c') /\
    columns d2 = columns Sample.magnitudes.
Proof.
  apply (apply_corrections_canonicalizes
           (set_df Sample.fields_swapped Sample.pipeline) Sample.fields_swapped
           Sample.magnitudes "Crop_type" "Elevation"
           [VStr "wheat "; VStr "wheat"; VStr "tea"] []).
  - reflexivity.
  - vm_compute. reflexivity.
  - reflexivity.
Defined.

(** The scenario of the specification: under [{"wheat": "Wheat"}] the
    value ["wheat "] with its trailing space is not a key and stays,
    while ["wheat"] becomes ["Wheat"]. *)
Example trailing_space_is_kept :
  get_default {["wheat" := "Wheat"]} (VStr "wheat ") = VStr "wheat "
  /\ get_default {["wheat" := "Wheat"]} (VStr "wheat") = VStr "Wheat".
Proof. split; vm_compute; reflexivity. Qed.

Lemma get_default_settled (mapping : gmap string string) (v : value) :
  settled mapping ->
  get_default mapping (get_default mapping v) = get_default mapping v.
Proof.
  intros Hset. destruct v as [|z|f|k]; try done. simpl.
  destruct (mapping !! k) as [t|] eqn:Hk; simpl.
  - destruct (Hset k t Hk) as [-> | ->]; done.
  - by rewrite Hk.
Qed.

Lemma map_column_twice (c : string) (g : Series -> Series) (d : DataFrame) :
  (forall s, g (g s) = g s) ->
  map_column c g (map_column c g d) = map_column c g d.
Proof.
  intros Hg. unfold map_column. simpl. f_equal.
  rewrite <- list_fmap_compose. apply list_fmap_ext.
  intros i [l s] _. simpl. destruct (decide (l = c)) as [->|Hne]; simpl.
  - rewrite decide_True by done. by rewrite Hg.
  - by rewrite decide_False.
Qed.

(** C9, as amended: when no canonical value of the mapping is itself a
    key that the mapping sends elsewhere, a canonicalization step that
    succeeded can be run again on its result, and gives that result
    again. *)
Theorem canonicalization_idempotent (mapping : gmap string string)
    (c : string) (d d1 : DataFrame) :
  settled mapping ->
  apply_column c (get_default mapping) d = Ok d1 ->
  apply_column c (get_default mapping) d1 = Ok d1.
Proof.
  intros Hset. unfold apply_column.
  destruct (select d c) as [|s [|s' l]] eqn:Hsel; try done.
  intros [= <-]. rewrite select_map_column_eq, Hsel. simpl. f_equal.
  apply map_column_twice. intros col. rewrite <- list_fmap_compose.
  apply list_fmap_ext. intros i v _. simpl. by apply get_default_settled.
Qed.

(** The mapping [{"wheat": "Wheat"}] is settled: "Wheat" is no key. *)
Lemma canonicalization_idempotent_witness :
  apply_column "Crop_type" (get_default {["wheat" := "Wheat"]})
    (mkDF 3 [("Field_ID", [VInt 1; VInt 2; VInt 3]);
             ("Crop_type", [VStr "wheat "; VStr "Wheat"; VStr "tea"])])
  = Ok (mkDF 3 [("Field_ID", [VInt 1; VInt 2; VInt 3]);
                ("Crop_type", [VStr "wheat "; VStr "Wheat"; VStr "tea"])]).
Proof.
  apply (canonicalization_idempotent {["wheat" := "Wheat"]} "Crop_type"
           (mkDF 3 [("Field_ID", [VInt 1; VInt 2; VInt 3]);
                    ("Crop_type", [VStr "wheat "; VStr "wheat"; VStr "tea"])])).
  - intros k t Hk. apply lookup_singleton_Some in Hk as [_ <-]. by left.
  - vm_compute. reflexivity.
Defined.

(** C9 as stated fails: under [{"a": "b", "b": "c"}] the value ["a"]
    becomes ["b"] in the first step and ["c"] in the second. *)
Lemma canonicalization_idempotent_as_stated_fails :
  apply_column "Crop_type" (get_default Sample.chained) Sample.letters
  = Ok (mkDF 1 [("Crop_type", [VStr "b"])])
  /\ apply_column "Crop_type" (get_default Sample.chained)
       (mkDF 1 [("Crop_type", [VStr "b"])])
     = Ok (mkDF 1 [("Crop_type", [VStr "c"])])
  /\ ~ canonicalization_idempotent_as_stated.
Proof.
  assert (H1 : apply_column "Crop_type" (get_default Sample.chained) Sample.letters
               = Ok (mkDF 1 [("Crop_type", [VStr "b"])]))
    by (vm_compute; reflexivity).
  assert (H2 : apply_column "Crop_type" (get_default Sample.chained)
                 (mkDF 1 [("Crop_type", [VStr "b"])])
               = Ok (mkDF 1 [("Crop_type", [VStr "c"])]))
    by (vm_compute; reflexivity).
  split; [exact H1|]. split; [exact H2|].
  intros H. specialize (H _ _ _ _ _ H1 H2). discriminate H.
Qed.

(** ** The indexers of the left join *)


Lemma elem_of_matches_from (j0 j : nat) (k : value) (rk : Series) :
  j ∈ matches_from j0 k rk <->
  (j0 <= j)%nat /\ exists v, rk !! (j - j0)%nat = Some v /\ key_eqb k v = true.
Proof.
  revert j0. induction rk as [|v rk IH]; intros j0; simpl.
  - rewrite elem_of_nil. split; [done|]. by intros (_ & v & ? & _).
  - assert (Hrest : j ∈ matches_from (S j0) k rk <->
                    (j0 < j)%nat /\ exists v', rk !! (j - S j0)%nat = Some v'
                                               /\ key_eqb k v' = true).
    { rewrite IH. split; intros (? & ?); split; done || lia. }
    destruct (key_eqb k v) eqn:Hkv.
    + rewrite elem_of_cons, Hrest. split.
      * intros [->|(Hlt & v' & Hv' & Hk)].
        -- split; [lia|]. exists v. by rewrite Nat.sub_diag.
        -- split; [lia|]. exists v'. split; [|done].
           by replace (j - j0)%nat with (S (j - S j0)) by lia.
      * intros (Hle & v' & Hv' & Hk).
        destruct (decide (j = j0)) as [->|Hne]; [by left|right].
        split; [lia|]. exists v'. split; [|done].
        by replace (j - j0)%nat with (S (j - S j0)) in Hv' by lia.
    + rewrite Hrest. split.
      * intros (Hlt & v' & Hv' & Hk). split; [lia|]. exists v'. split; [|done].
        by replace (j - j0)%nat with (S (j - S j0)) by lia.
      * intros (Hle & v' & Hv' & Hk).
        destruct (decide (j = j0)) as [->|Hne].
        -- rewrite Nat.sub_diag in Hv'. simpl in Hv'. congruence.
        -- split; [lia|]. exists v'. split; [|done].
           by replace (j - j0)%nat with (S (j - S j0)) in Hv' by lia.
Qed.

Lemma elem_of_matches (j : nat) (k : value) (rk : Series) :
  j ∈ matches k rk <-> exists v, rk !! j = Some v /\ key_eqb k v = true.
Proof.
  unfold matches. rewrite elem_of_matches_from, Nat.sub_0_r.
  split; [by intros [_ ?] | intros ?; split; [lia | done]].
Qed.

Lemma length_matches_from (j0 : nat) (k : value) (rk : Series) :
  length (matches_from j0 k rk) = partners k rk.
Proof.
  unfold partners. revert j0. induction rk as [|v rk IH]; intros j0; [done|].
  simpl. rewrite filter_cons. destruct (key_eqb k v) eqn:Hkv.
  - rewrite decide_True by done. simpl. by rewrite IH.
  - rewrite decide_False by done. apply IH.
Qed.

Lemma length_rows_for (i : nat) (k : value) (rk : Series) :
  length (rows_for i k rk) = (partners k rk `max` 1)%nat.
Proof.
  unfold rows_for. rewrite <- (length_matches_from 0 k rk). fold (matches k rk).
  destruct (matches k rk) as [|j js]; [done|].
  rewrite length_fmap. simpl. lia.
Qed.

Lemma elem_of_rows_for (i i' : nat) (oj : option nat) (k : value) (rk : Series) :
  (i', oj) ∈ rows_for i k rk <->
  i' = i /\ ((oj = None /\ matches k rk = []) \/
             (exists j, oj = Some j /\ j ∈ matches k rk)).
Proof.
  unfold rows_for. destruct (matches k rk) as [|j0 js] eqn:Hm.
  - rewrite list_elem_of_singleton. split.
    + intros [= -> ->]. split; [done|]. by left.
    + intros (-> & [[-> _]|(j & _ & Hj)]); [done|]. by apply elem_of_nil in Hj.
  - rewrite list_elem_of_fmap. split.
    + intros (j & [= -> ->] & Hj). split; [done|]. right. eauto.
    + intros (-> & [[_ ?]|(j & -> & Hj)]); [done|]. eauto.
Qed.

Lemma length_join_from (i0 : nat) (lk rk : Series) :
  length (join_from i0 lk rk) = fan_out lk rk.
Proof.
  unfold fan_out. revert i0. induction lk as [|k lk IH]; intros i0; [done|].
  simpl. by rewrite length_app, length_rows_for, IH.
Qed.

Lemma elem_of_join_from (i0 i : nat) (oj : option nat) (lk rk : Series) :
  (i, oj) ∈ join_from i0 lk rk <->
  (i0 <= i)%nat /\ exists k, lk !! (i - i0)%nat = Some k /\ (i, oj) ∈ rows_for i k rk.
Proof.
  revert i0. induction lk as [|k lk IH]; intros i0; simpl.
  - rewrite elem_of_nil. split; [done|]. by intros (_ & k & ? & _).
  - rewrite elem_of_app, IH. split.
    + intros [Hin|(Hle & k' & Hk' & Hin)].
      * pose proof Hin as (-> & _)%elem_of_rows_for.
        split; [lia|]. exists k. by rewrite Nat.sub_diag.
      * split; [lia|]. exists k'. split; [|done].
        by replace (i - i0)%nat with (S (i - S i0)) by lia.
    + intros (Hle & k' & Hk' & Hin).
      destruct (decide (i = i0)) as [->|Hne].
      * left. rewrite Nat.sub_diag in Hk'. simpl in Hk'. by injection Hk' as ->.
      * right. split; [lia|]. exists k'. split; [|done].
        by replace (i - i0)%nat with (S (i - S i0)) in Hk' by lia.
Qed.

(** What an entry of the indexer says about the two key columns. *)
Lemma elem_of_join_indexer (i : nat) (oj : option nat) (lk rk : Series) :
  (i, oj) ∈ join_indexer lk rk <->
  exists k, lk !! i = Some k /\
            match oj with
            | Some j => exists v, rk !! j = Some v /\ key_eqb k v = true
            | None => forall v, v ∈ rk -> key_eqb k v = false
            end.
Proof.
  unfold join_indexer. rewrite elem_of_join_from, Nat.sub_0_r.
  assert (Hnone : forall k, matches k rk = [] <->
                            forall v, v ∈ rk -> key_eqb k v = false).
  { intros k. split.
    - intros Hm v (j & Hj)%list_elem_of_lookup_1.
      destruct (key_eqb k v) eqn:Hkv; [|done].
      assert (Hin : j ∈ matches k rk) by (apply elem_of_matches; eauto).
      rewrite Hm in Hin. by apply elem_of_nil in Hin.
    - intros Hall. destruct (matches k rk) as [|j js] eqn:Hm; [done|].
      assert (Hin : j ∈ matches k rk) by (rewrite Hm; apply list_elem_of_here).
      apply elem_of_matches in Hin as (v & Hv & Hkv).
      rewrite (Hall v) in Hkv; [done|]. by eapply list_elem_of_lookup_2. }
  split.
  - intros (_ & k & Hk & (_ & Hcase)%elem_of_rows_for). exists k. split; [done|].
    destruct Hcase as [[-> Hm]|(j & -> & Hj)].
    + by apply Hnone.
    + by apply elem_of_matches.
  - intros (k & Hk & Hoj). split; [lia|]. exists k. split; [done|].
    apply elem_of_rows_for. split; [done|]. destruct oj as [j|].
    + right. exists j. split; [done|]. by apply elem_of_matches.
    + left. split; [done|]. by apply Hnone.
Qed.

(** ** Row counts of the join *)

Lemma fan_out_ge (lk rk : Series) : (length lk <= fan_out lk rk)%nat.
Proof.
  unfold fan_out. induction lk as [|k lk IH]; [done|].
  rewrite fmap_cons. simpl.
  pose proof (Nat.le_max_r (partners k rk) 1). lia.
Qed.



(** ** Rows of the joined table *)

Lemma elem_of_select (d : DataFrame) (c : string) (s : Series) :
  s ∈ select d c <-> (c, s) ∈ cols d.
Proof.
  unfold select. rewrite list_elem_of_fmap. split.
  - intros ([l s'] & -> & [Hl Hin]%list_elem_of_filter). simpl in *. by subst.
  - intros Hin. exists (c, s). split; [done|]. by apply list_elem_of_filter.
Qed.

Lemma rectangular_select (d : DataFrame) (c : string) (s : Series) :
  rectangular d -> select d c = [s] -> length s = nrows d.
Proof.
  intros Hrect Hsel.
  assert (Hin : (c, s) ∈ cols d).
  { apply elem_of_select. rewrite Hsel. apply list_elem_of_here. }
  unfold rectangular in Hrect. rewrite Forall_forall in Hrect.
  by apply (Hrect (c, s)).
Qed.


Section Rows.
Context (ix : list (nat * option nat)) (g : string -> string).
Context (cs : list (string * Series)) (n : nat).
Hypothesis Hrect : Forall (fun c => length c.2 = n) cs.



End Rows.



(** The cast to the common type changes no length. *)
Lemma length_common_keys (lk rk : Series) :
  length (common_keys lk rk).1 = length lk /\
  length (common_keys lk rk).2 = length rk.
Proof.
  unfold common_keys.
  destruct (dtype_of lk), (dtype_of rk); simpl; by rewrite ?length_fmap.
Qed.


(** [read_from_web_CSV] hands on whatever table [read_csv] gives, an empty
    one as well: it looks at neither rows nor columns. *)
Lemma read_from_web_CSV_returns (w : World) (url : string) (d : DataFrame)
    (m : Machine) :
  pd_read_csv w url = Ok d ->
  read_from_web_CSV w url m = (Ok d, mkMachine (self m) (calls m ++ [Fetch url])).
Proof.
  intros Hcsv. unfold read_from_web_CSV, mbind, M_bind, emit. simpl.
  by rewrite Hcsv.
Qed.

Lemma weather_station_mapping_run (w : World) (this : FieldDataProcessor)
    (d wm merged : DataFrame) (tr : list event) :
  df this = Some d ->
  pd_read_csv w (weather_map_data this) = Ok wm ->
  merge_left "Field_ID" d wm = Ok merged ->
  weather_station_mapping w (mkMachine this tr)
  = (Ok (Some wm),
     mkMachine (set_df merged this) (tr ++ [Fetch (weather_map_data this)])).
Proof.
  intros Hdf Hcsv Hmerge.
  unfold weather_station_mapping, mbind at 1, M_bind, get_self. simpl.
  rewrite Hdf. unfold mbind at 1, M_bind.
  rewrite (read_from_web_CSV_returns w _ wm) by done.
  unfold mbind, M_bind, lift, put_self. simpl. by rewrite Hmerge.
Qed.

(** ** The join stage *)



(** The join of the corrected sample: field 1 has two stations and fills
    two rows, field 2 has none and gets NaN, field 3 has one. *)
Example weather_station_mapping_sample :
  weather_station_mapping (Sample.world_of Sample.fields Sample.station_map)
    (mkMachine (set_df Sample.corrected Sample.pipeline) [])
  = (Ok (Some Sample.station_map),
     mkMachine (set_df Sample.joined Sample.pipeline) [Fetch Sample.url]).
Proof. vm_compute. reflexivity. Qed.

(** An [int64] key column against a [float64] one: the keys are compared
    as floats, so field 1 finds both rows keyed 1.0; the key column of
    the output keeps its integers. *)
Example merge_left_int_and_float_keys :
  merge_left "Field_ID"
    (mkDF 1 [("Field_ID", [VInt 1])])
    (mkDF 2 [("Field_ID", [VFloat Sample.f1; VFloat Sample.f1]);
             ("Weather_station", [VInt 4; VInt 0])])
  = Ok (mkDF 2 [("Field_ID", [VInt 1; VInt 1]);
                ("Weather_station", [VInt 4; VInt 0])]).
Proof. vm_compute. reflexivity. Qed.

(** An integer column that receives a NaN is held as floats, and
    2^53 + 1 is rounded to 2^53 on the way. *)
Example merge_left_widens :
  merge_left "Field_ID"
    (mkDF 2 [("Field_ID", [VInt 1; VInt 2])])
    (mkDF 1 [("Field_ID", [VInt 1]);
             ("Weather_station", [VInt 9007199254740993])])
  = Ok (mkDF 2 [("Field_ID", [VInt 1; VInt 2]);
                ("Weather_station",
                 [VFloat (S754_finite false 4503599627370496 1); NaN])]).
Proof. vm_compute. reflexivity. Qed.

(** A key column of numbers against one of strings is refused. *)
Example merge_left_keys_clash :
  merge_left "Field_ID"
    (mkDF 1 [("Field_ID", [VInt 1])])
    (mkDF 1 [("Field_ID", [VStr "1"]); ("Weather_station", [VInt 4])])
  = Raise ValueError.
Proof. vm_compute. reflexivity. Qed.

(** ** The whole pipeline *)

Lemma ingest_sql_data_run (w : World) (this : FieldDataProcessor)
    (eng : Engine) (d0 : DataFrame) (tr : list event) :
  sa_create_engine w (db_path this) = Ok eng ->
  sa_connect w eng = Ok tt ->
  pd_read_sql_query w eng (sql_query this) = Ok d0 ->
  empty d0 = false ->
  ingest_sql_data w (mkMachine this tr)
  = (Ok d0,
     mkMachine (set_df d0 (set_engine eng this))
       (tr ++ [Connect (db_path this); Query (sql_query this)])).
Proof.
  intros Heng Hconn Hsql Hempty.
  unfold ingest_sql_data, create_db_engine, query_data, mbind, M_bind,
    get_self, put_self, emit, mret, M_ret. simpl.
  rewrite Heng. simpl. rewrite Hconn. simpl. rewrite Hsql, Hempty. simpl.
  by rewrite <- app_assoc.
Qed.

(** The sibling of the CSV reader: an empty query result is refused. *)
Lemma ingest_sql_data_empty (w : World) (this : FieldDataProcessor)
    (eng : Engine) (d0 : DataFrame) (tr : list event) :
  sa_create_engine w (db_path this) = Ok eng ->
  sa_connect w eng = Ok tt ->
  pd_read_sql_query w eng (sql_query this) = Ok d0 ->
  empty d0 = true ->
  ingest_sql_data w (mkMachine this tr)
  = (Raise ValueError,
     mkMachine (set_engine eng this)
       (tr ++ [Connect (db_path this); Query (sql_query this)])).
Proof.
  intros Heng Hconn Hsql Hempty.
  unfold ingest_sql_data, create_db_engine, query_data, mbind, M_bind,
    get_self, put_self, emit, mret, M_ret. simpl.
  rewrite Heng. simpl. rewrite Hconn. simpl. rewrite Hsql, Hempty. simpl.
  by rewrite <- app_assoc.
Qed.

(** The four stages in terms of what each one computes. *)
Lemma four_stages_run (w : World) (this : FieldDataProcessor) (eng : Engine)
    (d0 d2 d3 wm merged : DataFrame) (A B temp : string)
    (rest : list (string * string)) (tr : list event) :
  sa_create_engine w (db_path this) = Ok eng ->
  sa_connect w eng = Ok tt ->
  pd_read_sql_query w eng (sql_query this) = Ok d0 ->
  empty d0 = false ->
  columns_to_rename this = (A, B) :: rest ->
  temp_name_for (columns d0) = Some temp ->
  abs_column_of "Elevation" (swap_step2 B temp (swap_step1 A B temp d0)) = Ok d2 ->
  apply_column "Crop_type" (get_default (values_to_rename this)) d2 = Ok d3 ->
  pd_read_csv w (weather_map_data this) = Ok wm ->
  merge_left "Field_ID" d3 wm = Ok merged ->
  four_stages w (mkMachine this tr)
  = (Ok (Some wm),
     mkMachine (set_df merged (set_engine eng this))
       (tr ++ [Connect (db_path this); Query (sql_query this);
               Fetch (weather_map_data this)])).
Proof.
  intros Heng Hconn Hsql Hempty Hpair Htemp Habs Hmap Hcsv Hmerge.
  unfold four_stages, mbind at 1 2 3, M_bind.
  rewrite (ingest_sql_data_run w this eng d0 tr) by done.
  rewrite (rename_columns_run _ d0 A B temp rest) by done.
  unfold apply_corrections, mbind, M_bind, get_self, put_self, lift. simpl.
  rewrite Habs. simpl. rewrite Hmap. simpl.
  rewrite (weather_station_mapping_run w _ d3 wm merged) by done.
  simpl. by rewrite <- app_assoc.
Qed.

(** [process] is the four stages followed by the drop: an exception of a
    stage, or of the drop, ends [process] with the machine as it then is. *)
Lemma process_after_four_stages (w : World) (m : Machine) :
  process w m
  = match four_stages w m with
    | (Ok _, m') =>
        match df (self m') with
        | None => (Raise AttributeError, m')
        | Some d =>
            match drop_column "Unnamed: 0" d with
            | Ok d' => (Ok tt, mkMachine (set_df d' (self m')) (calls m'))
            | Raise e => (Raise e, m')
            end
        end
    | (Raise e, m') => (Raise e, m')
    end.
Proof.
  unfold process, four_stages, mbind, M_bind, get_self, put_self, lift.
  destruct (ingest_sql_data w m) as [[?|?] m1]; [|done].
  destruct (rename_columns m1) as [[?|?] m2]; [|done].
  destruct (apply_corrections "Crop_type" "Elevation" m2) as [[?|?] m3]; [|done].
  destruct (weather_station_mapping w m3) as [[?|?] m4]; [|done].
  simpl. destruct (df (self m4)) as [d|]; [|done].
  by destruct (drop_column "Unnamed: 0" d).
Qed.

(** C6, as amended: [process] ingests, swaps the two columns, corrects the
    values and joins the mapping, in that order, and then drops the column
    "Unnamed: 0" from the joined table.  When the joined table has that
    column, [process] returns and [df] is the joined table without it;
    when it has not, [process] raises [KeyError] and [df] is left as the
    joined table. *)
Theorem process_runs_stages_then_drops (w : World) (this : FieldDataProcessor)
    (eng : Engine) (d0 d2 d3 wm merged : DataFrame) (A B temp : string)
    (rest : list (string * string)) (tr : list event) :
  sa_create_engine w (db_path this) = Ok eng ->
  sa_connect w eng = Ok tt ->
  pd_read_sql_query w eng (sql_query this) = Ok d0 ->
  empty d0 = false ->
  columns_to_rename this = (A, B) :: rest ->
  temp_name_for (columns d0) = Some temp ->
  abs_column_of "Elevation" (swap_step2 B temp (swap_step1 A B temp d0)) = Ok d2 ->
  apply_column "Crop_type" (get_default (values_to_rename this)) d2 = Ok d3 ->
  pd_read_csv w (weather_map_data this) = Ok wm ->
  merge_left "Field_ID" d3 wm = Ok merged ->
  ("Unnamed: 0" ∈ columns merged ->
   process w (mkMachine this tr)
   = (Ok tt,
      mkMachine
        (set_df (mkDF (nrows merged)
                   (filter (fun p => p.1 ≠ "Unnamed: 0") (cols merged)))
                (set_engine eng this))
        (tr ++ [Connect (db_path this); Query (sql_query this);
                Fetch (weather_map_data this)]))) /\
  ("Unnamed: 0" ∉ columns merged ->
   process w (mkMachine this tr)
   = (Raise (KeyError "Unnamed: 0"),
      mkMachine (set_df merged (set_engine eng this))
        (tr ++ [Connect (db_path this); Query (sql_query this);
                Fetch (weather_map_data this)]))).
Proof.
  intros Heng Hconn Hsql Hempty Hpair Htemp Habs Hmap Hcsv Hmerge.
  pose proof (four_stages_run w this eng d0 d2 d3 wm merged A B temp rest tr
                Heng Hconn Hsql Hempty Hpair Htemp Habs Hmap Hcsv Hmerge)
    as Hrun.
  rewrite process_after_four_stages, Hrun. simpl.
  unfold drop_column, has_label.
  split; intros Hin.
  - by rewrite bool_decide_eq_true_2.
  - by rewrite bool_decide_eq_false_2.
Qed.

(** The sample run: the mapping file has its index column, and [process]
    leaves the finalized table. *)
Lemma process_runs_stages_then_drops_witness :
  process (Sample.world_of Sample.fields Sample.station_map)
    (mkMachine Sample.pipeline [])
  = (Ok tt, mkMachine (Sample.running Sample.finalized) Sample.run_calls).
Proof.
  destruct (process_runs_stages_then_drops
              (Sample.world_of Sample.fields Sample.station_map)
              Sample.pipeline (mkEngine "sqlite:///farm.db")
              Sample.fields Sample.magnitudes Sample.corrected
              Sample.station_map Sample.joined
              "Annual_yield" "Crop_type" "__temp_name_for_swap__" [] [])
    as [Hpresent _].
  - reflexivity.
  - reflexivity.
  - reflexivity.
  - reflexivity.
  - reflexivity.
  - reflexivity.
  - vm_compute. reflexivity.
  - vm_compute. reflexivity.
  - reflexivity.
  - vm_compute. reflexivity.
  - apply Hpresent. apply (bool_decide_unpack _). vm_compute. exact I.
Defined.

(** On a mapping file written without index column the four stages
    succeed and the drop fails. *)
Example four_stages_without_index_column :
  four_stages (Sample.world_of Sample.fields Sample.station_map_no_index)
    (mkMachine Sample.pipeline [])
  = (Ok (Some Sample.station_map_no_index),
     mkMachine (Sample.running Sample.joined_no_index) Sample.run_calls).
Proof. vm_compute. reflexivity. Qed.

Example process_without_index_column :
  process (Sample.world_of Sample.fields Sample.station_map_no_index)
    (mkMachine Sample.pipeline [])
  = (Raise (KeyError "Unnamed: 0"),
     mkMachine (Sample.running Sample.joined_no_index) Sample.run_calls).
Proof. vm_compute. reflexivity. Qed.

(** C6 as stated fails: with a mapping table that has no "Unnamed: 0"
    column the four stages succeed and [process] raises [KeyError]. *)
Lemma process_completes_as_stated_fails :
  four_stages (Sample.world_of Sample.fields Sample.station_map_no_index)
    (mkMachine Sample.pipeline [])
  = (Ok (Some Sample.station_map_no_index),
     mkMachine (Sample.running Sample.joined_no_index) Sample.run_calls)
  /\ process (Sample.world_of Sample.fields Sample.station_map_no_index)
       (mkMachine Sample.pipeline [])
     = (Raise (KeyError "Unnamed: 0"),
        mkMachine (Sample.running Sample.joined_no_index) Sample.run_calls)
  /\ ~ process_completes_as_stated.
Proof.
  split; [exact four_stages_without_index_column|].
  split; [exact process_without_index_column|].
  intros H.
  destruct (H _ _ _ _ four_stages_without_index_column) as [m'' Hm''].
  rewrite process_without_index_column in Hm''. discriminate Hm''.
Qed.

(** C5: the mapping file has its header and no row.  [read_from_web_CSV]
    hands the empty table on, the join fills the station column with NaN,
    and [process] returns with that table in [df]: nothing is raised. *)
Theorem process_with_empty_mapping_returns :
  empty Sample.station_map_no_rows = true
  /\ process (Sample.world_of Sample.fields Sample.station_map_no_rows)
       (mkMachine Sample.pipeline [])
     = (Ok tt, mkMachine (Sample.running Sample.finalized_no_rows) Sample.run_calls).
Proof. split; vm_compute; reflexivity. Qed.

(** The same emptiness on the SQL side is refused by [query_data]. *)
Example process_with_empty_query_raises :
  process (Sample.world_of Sample.station_map_no_rows Sample.station_map)
    (mkMachine Sample.pipeline [])
  = (Raise ValueError,
     mkMachine (set_engine (mkEngine "sqlite:///farm.db") Sample.pipeline)
       [Connect "sqlite:///farm.db"; Query "SELECT * FROM fields"]).
Proof. vm_compute. reflexivity. Qed.

(** * Further properties of the code *)

(** ** The gateway functions *)

(** X1: [create_db_engine] never lets an [ImportError] out: one raised by
    [create_engine] or by the connection test leaves the handler as a
    [NameError].  Any other exception of either call is raised again as it
    is, and the engine is returned only when both calls succeed.  The
    instance is not touched and one connection attempt is recorded. *)
Theorem create_db_engine_never_import_error (w : World) (path : string)
    (m : Machine) :
  (create_db_engine w path m).1 ≠ Raise ImportError
  /\ (create_db_engine w path m).2
     = mkMachine (self m) (calls m ++ [Connect path])
  /\ (sa_create_engine w path = Raise ImportError ->
      (create_db_engine w path m).1 = Raise NameError)
  /\ (forall eng, sa_create_engine w path = Ok eng ->
                  sa_connect w eng = Raise ImportError ->
                  (create_db_engine w path m).1 = Raise NameError)
  /\ (forall e, e ≠ ImportError -> sa_create_engine w path = Raise e ->
                (create_db_engine w path m).1 = Raise e)
  /\ (forall eng e, e ≠ ImportError -> sa_create_engine w path = Ok eng ->
                    sa_connect w eng = Raise e ->
                    (create_db_engine w path m).1 = Raise e)
  /\ (forall eng, (create_db_engine w path m).1 = Ok eng ->
                  sa_create_engine w path = Ok eng /\ sa_connect w eng = Ok tt).
Proof.
  unfold create_db_engine, mbind, M_bind, emit, raise, mret, M_ret. simpl.
  destruct (sa_create_engine w path) as [eng|e] eqn:Hcreate.
  - destruct (sa_connect w eng) as [[]|e] eqn:Hconn; simpl.
    + repeat split; try done; intros; simplify_eq; try done; congruence.
    + destruct e; simpl; repeat split; try done; intros; simplify_eq;
        try done; congruence.
  - destruct e; simpl; repeat split; try done; intros; simplify_eq;
      try done; congruence.
Qed.

(** X2: [query_data] never returns an empty table.  What it returns is
    what [read_sql_query] gave, and that has at least one row and one
    column; an empty answer is turned into a [ValueError]; an exception of
    [read_sql_query] is raised again as it is.  The instance is not
    touched and one query is recorded. *)
Theorem query_data_never_empty (w : World) (eng : Engine) (query : string)
    (m : Machine) :
  (forall d, (query_data w eng query m).1 = Ok d ->
             pd_read_sql_query w eng query = Ok d /\ empty d = false /\
             (0 < nrows d)%nat /\ (0 < length (cols d))%nat)
  /\ (forall d, pd_read_sql_query w eng query = Ok d -> empty d = true ->
                (query_data w eng query m).1 = Raise ValueError)
  /\ (forall e, pd_read_sql_query w eng query = Raise e ->
                (query_data w eng query m).1 = Raise e)
  /\ (query_data w eng query m).2 = mkMachine (self m) (calls m ++ [Query query]).
Proof.
  unfold query_data, mbind, M_bind, emit, raise, mret, M_ret. simpl.
  destruct (pd_read_sql_query w eng query) as [d|e] eqn:Hread; simpl.
  - destruct (empty d) eqn:Hempty; simpl.
    + repeat split; try done; intros; simplify_eq; try done; congruence.
    + assert (Hpos : (0 < nrows d)%nat /\ (0 < length (cols d))%nat).
      { unfold empty in Hempty. apply orb_false_iff in Hempty as [H1 H2].
        apply Nat.eqb_neq in H1, H2. lia. }
      destruct Hpos.
      repeat split; try done; intros; simplify_eq; try done; congruence.
  - repeat split; try done; intros; simplify_eq; try done; congruence.
Qed.

(** ** Ingestion *)

(** X3: [ingest_sql_data] replaces [df] only by a table that is not empty,
    and returns that same table; then the engine is set and the trace
    shows the connection followed by the query.  When it raises, [df] is
    what it was before. *)
Theorem ingest_sql_data_sets_nonempty_table (w : World) (m : Machine) :
  match ingest_sql_data w m with
  | (Ok d, m') =>
      df (self m') = Some d /\ empty d = false /\
      (exists eng, engine (self m') = Some eng
                   /\ pd_read_sql_query w eng (sql_query (self m)) = Ok d) /\
      calls m' = (calls m ++ [Connect (db_path (self m));
                              Query (sql_query (self m))])%list
  | (Raise e, m') => df (self m') = df (self m)
  end.
Proof.
  unfold ingest_sql_data, create_db_engine, query_data, mbind, M_bind,
    get_self, put_self, emit, raise, mret, M_ret. simpl.
  destruct (sa_create_engine w (db_path (self m))) as [eng|e]; simpl.
  - destruct (sa_connect w eng) as [[]|e]; simpl.
    + destruct (pd_read_sql_query w eng (sql_query (self m))) as [d|e] eqn:Hread;
        simpl; [|done].
      destruct (empty d) eqn:Hempty; simpl; [done|].
      repeat split; try done.
      * by exists eng.
      * by rewrite <- app_assoc.
    + by destruct e.
  - by destruct e.
Qed.

(** ** The placeholder loop, once more *)

Lemma fresh_name_least (fuel : nat) (names : list string) (t : string) :
  (length (at_least (String.length t) names) <= fuel)%nat ->
  exists k, (k <= fuel)%nat /\
            fresh_name fuel names t = Some (underscored k t) /\
            (underscored k t ∉ names) /\
            forall j, (j < k)%nat -> underscored j t ∈ names.
Proof.
  revert t. induction fuel as [|fuel IH]; intros t Hfuel; simpl.
  - case_bool_decide as Hin.
    + pose proof (at_least_succ_lt t names Hin). lia.
    + exists 0%nat. repeat split; try done. intros j Hj. lia.
  - case_bool_decide as Hin.
    + destruct (IH (t +:+ "_")) as (k & Hk & Hrun & Hfree & Hbelow).
      { rewrite string_length_app. simpl.
        pose proof (at_least_succ_lt t names Hin).
        replace (String.length t + 1)%nat with (S (String.length t)) by lia.
        lia. }
      exists (S k). repeat split; try done; [lia|].
      intros [|j] Hj; simpl; [done|]. apply Hbelow. lia.
    + exists 0%nat. repeat split; try done; [lia|]. intros j Hj. lia.
Qed.

(** X4: the loop [while temp_name in self.df.columns: temp_name += "_"]
    ends, for every list of column names, after at most as many
    extensions as there are columns; the name it ends with is the
    placeholder followed by underscores, is no column name, and is the
    shortest such name: every shorter candidate is a column name. *)
Theorem placeholder_is_least_free (names : list string) :
  exists k, (k <= length names)%nat /\
            temp_name_for names = Some (underscored k "__temp_name_for_swap__") /\
            (underscored k "__temp_name_for_swap__" ∉ names) /\
            forall j, (j < k)%nat ->
                      underscored j "__temp_name_for_swap__" ∈ names.
Proof.
  apply fresh_name_least. unfold at_least. apply length_filter.
Qed.

(** ** [rename_columns] on any table *)

Lemma rename_data (m : gmap string string) (d : DataFrame) :
  (cols (rename m d)).*2 = (cols d).*2 /\ nrows (rename m d) = nrows d
  /\ length (cols (rename m d)) = length (cols d).
Proof.
  unfold rename. simpl. split; [|split; [done | by rewrite length_fmap]].
  rewrite <- list_fmap_compose. apply list_fmap_ext. by intros i [c s].
Qed.

(** X5: whatever the table and whatever the pair, [rename_columns] changes
    labels only: it returns, the data of every column, the order of the
    columns and the two counts are as before, and a column whose label is
    neither of the pair keeps its label. *)
Theorem rename_columns_only_relabels (this : FieldDataProcessor)
    (d : DataFrame) (A B : string) (rest : list (string * string))
    (tr : list event) :
  columns_to_rename this = (A, B) :: rest ->
  df this = Some d ->
  exists d',
    rename_columns (mkMachine this tr) = (Ok tt, mkMachine (set_df d' this) tr) /\
    (cols d').*2 = (cols d).*2 /\
    nrows d' = nrows d /\
    length (cols d') = length (cols d) /\
    (forall i c s, cols d !! i = Some (c, s) -> c ≠ A -> c ≠ B ->
                   cols d' !! i = Some (c, s)).
Proof.
  intros Hpair Hdf.
  destruct (fresh_name_total (columns d)) as (temp & Htemp & Hfresh).
  eexists. split; [by eapply rename_columns_run|].
  unfold swap_step2, swap_step1.
  destruct (rename_data {[temp := B]}
              (rename (<[B:=A]> {[A := temp]}) d)) as (H1 & H2 & H3).
  destruct (rename_data (<[B:=A]> {[A := temp]}) d) as (H4 & H5 & H6).
  repeat split; try congruence.
  intros i c s Hi HcA HcB. unfold rename. simpl.
  rewrite !list_lookup_fmap, Hi. simpl. do 2 f_equal.
  assert (c ≠ temp).
  { intros ->. apply Hfresh. unfold columns. apply list_elem_of_fmap.
    exists (temp, s). split; [done|]. by eapply list_elem_of_lookup_2. }
  unfold rename_label.
  rewrite lookup_insert_ne, lookup_singleton_ne by done. simpl.
  by rewrite lookup_singleton_ne.
Qed.

(** On the table [A, C] with the pair (A, B). *)
Lemma rename_columns_only_relabels_witness :
  exists d',
    rename_columns (mkMachine (Sample.swapper Sample.ac) [])
    = (Ok tt, mkMachine (set_df d' (Sample.swapper Sample.ac)) []) /\
    (cols d').*2 = (cols Sample.ac).*2 /\
    nrows d' = nrows Sample.ac /\
    length (cols d') = length (cols Sample.ac) /\
    (forall i c s, cols Sample.ac !! i = Some (c, s) -> c ≠ "A" -> c ≠ "B" ->
                   cols d' !! i = Some (c, s)).
Proof.
  apply (rename_columns_only_relabels (Sample.swapper Sample.ac) Sample.ac
           "A" "B" [] []); reflexivity.
Defined.

(** X6: when the second name of the pair labels no column, nothing is
    raised: [rename_columns] returns and every column labelled with the
    first name is now labelled with the second, all else unchanged. *)
Theorem rename_columns_second_absent (this : FieldDataProcessor)
    (d : DataFrame) (A B : string) (rest : list (string * string))
    (tr : list event) :
  columns_to_rename this = (A, B) :: rest ->
  df this = Some d ->
  B ∉ columns d ->
  rename_columns (mkMachine this tr)
  = (Ok tt, mkMachine (set_df (relabel (rename_one A B) d) this) tr).
Proof.
  intros Hpair Hdf HB.
  destruct (fresh_name_total (columns d)) as (temp & Htemp & Hfresh).
  erewrite rename_columns_run by done. do 3 f_equal.
  unfold swap_step2, swap_step1, rename, relabel. simpl. f_equal.
  rewrite <- list_fmap_compose. apply list_fmap_ext.
  intros i [c s] Hi. simpl. f_equal.
  assert (Hc : c ∈ columns d).
  { unfold columns. apply list_elem_of_fmap. exists (c, s).
    split; [done|]. by eapply list_elem_of_lookup_2. }
  assert (c ≠ temp) by (intros ->; done).
  assert (c ≠ B) by (intros ->; done).
  unfold rename_label, rename_one.
  rewrite lookup_insert_ne by done.
  destruct (decide (c = A)) as [->|HcA].
  - rewrite lookup_singleton_eq. simpl. by rewrite lookup_singleton_eq.
  - rewrite lookup_singleton_ne by done. simpl.
    by rewrite lookup_singleton_ne.
Qed.

(** On the table [A, C] with the pair (A, B): A becomes B. *)
Lemma rename_columns_second_absent_witness :
  rename_columns (mkMachine (Sample.swapper Sample.ac) [])
  = (Ok tt,
     mkMachine (set_df (relabel (rename_one "A" "B") Sample.ac)
                       (Sample.swapper Sample.ac)) []).
Proof.
  apply (rename_columns_second_absent (Sample.swapper Sample.ac) Sample.ac
           "A" "B" [] []).
  - reflexivity.
  - reflexivity.
  - apply (bool_decide_unpack _). vm_compute. exact I.
Defined.

(** X7: [rename_columns] raises in two cases only, and then changes
    nothing: an [IndexError] when [columns_to_rename] is empty, an
    [AttributeError] when there is no table yet. *)
Theorem rename_columns_raises_only (m m' : Machine) (e : exn) :
  rename_columns m = (Raise e, m') ->
  m' = m /\
  ((columns_to_rename (self m) = [] /\ e = IndexError) \/
   (columns_to_rename (self m) ≠ [] /\ df (self m) = None /\ e = AttributeError)).
Proof.
  unfold rename_columns, mbind, M_bind, get_self, raise, put_self. simpl.
  destruct (columns_to_rename (self m)) as [|[A B] rest] eqn:Hpair.
  - intros [= <- <-]. split; [done|]. by left.
  - destruct (df (self m)) as [d|] eqn:Hdf.
    + destruct (fresh_name_total (columns d)) as (temp & -> & _). done.
    + intros [= <- <-]. split; [done|]. by right.
Qed.

(** An instance with an empty [columns_to_rename]. *)
Lemma rename_columns_raises_only_witness :
  mkMachine no_pair [] = mkMachine no_pair [] /\
  ((columns_to_rename (self (mkMachine no_pair [])) = [] /\ IndexError = IndexError) \/
   (columns_to_rename (self (mkMachine no_pair [])) ≠ [] /\
    df (self (mkMachine no_pair [])) = None /\ IndexError = AttributeError)).
Proof.
  apply (rename_columns_raises_only (mkMachine no_pair []) (mkMachine no_pair [])
           IndexError).
  reflexivity.
Defined.

(** ** [apply_corrections]: what it raises and what it leaves *)

Lemma mapR_raises {A B} (f : A -> result B) (l : list A) (e : exn) :
  mapR f l = Raise e -> exists x, x ∈ l /\ f x = Raise e.
Proof.
  induction l as [|x l IH]; simpl; [done|].
  destruct (f x) as [y|e'] eqn:Hx.
  - destruct (mapR f l) as [ys|e'']; [done|]. intros [= ->].
    destruct IH as (x' & Hin & Hx'); [done|].
    exists x'. split; [by apply list_elem_of_further | done].
  - intros [= ->]. exists x. split; [apply list_elem_of_here | done].
Qed.

Lemma abs_value_raises (v : value) (e : exn) :
  abs_value v = Raise e -> e = TypeError.
Proof. destruct v; simpl; congruence. Qed.

Lemma abs_column_of_raises (c : string) (d : DataFrame) (e : exn) :
  abs_column_of c d = Raise e ->
  (e = KeyError c /\ c ∉ columns d) \/ e = TypeError.
Proof.
  unfold abs_column_of, has_label. case_bool_decide as Hin.
  - destruct (mapR _ (cols d)) as [cs|e'] eqn:Hmap; [done|].
    intros [= ->]. right.
    apply mapR_raises in Hmap as ([l s] & _ & Hp). simpl in Hp.
    destruct (decide (l = c)); [|done].
    destruct (series_abs s) as [s'|e'] eqn:Hs; [done|].
    injection Hp as ->. apply mapR_raises in Hs as (v & _ & Hv).
    by eapply abs_value_raises.
  - intros [= <-]. by left.
Qed.

Lemma apply_column_raises (c : string) (f : value -> value) (d : DataFrame)
    (e : exn) :
  apply_column c f d = Raise e ->
  (e = KeyError c /\ c ∉ columns d) \/ e = TypeError.
Proof.
  unfold apply_column. destruct (select d c) as [|s [|s' l]] eqn:Hsel.
  - intros [= <-]. left. split; [done|].
    intros Hin. assert (Hl : has_label d c = true) by by apply bool_decide_eq_true.
    by apply has_label_select in Hl.
  - done.
  - intros [= <-]. by right.
Qed.

(** X8: [apply_corrections] raises nothing but a [TypeError] or a
    [KeyError] for one of its two column names.  When it raises, the
    trace is as before, and the table is either untouched or has had the
    absolute values written and nothing else. *)
Theorem apply_corrections_raises_only (cn ac : string) (m m' : Machine)
    (e : exn) :
  apply_corrections cn ac m = (Raise e, m') ->
  (e = TypeError \/ e = KeyError ac \/ e = KeyError cn) /\
  calls m' = calls m /\
  (self m' = self m \/
   exists d d1, df (self m) = Some d /\ abs_column_of ac d = Ok d1 /\
                self m' = set_df d1 (self m)).
Proof.
  unfold apply_corrections, mbind, M_bind, get_self, raise, put_self, lift.
  simpl. destruct (df (self m)) as [d|] eqn:Hdf.
  - destruct (abs_column_of ac d) as [d1|e1] eqn:Habs; simpl.
    + destruct (apply_column cn _ d1) as [d2|e2] eqn:Hmap; simpl; [done|].
      intros [= <- <-]. simpl. split; [|split; [done|]].
      * apply apply_column_raises in Hmap as [[-> _]| ->]; auto.
      * right. by exists d, d1.
    + intros [= <- <-]. split; [|by split; [|left]].
      apply abs_column_of_raises in Habs as [[-> _]| ->]; auto.
  - intros [= <- <-]. split; [by left|]. by split; [|left].
Qed.

(** A table without Elevation: the first statement raises. *)
Lemma apply_corrections_raises_only_witness :
  (KeyError "Elevation" = TypeError \/
   KeyError "Elevation" = KeyError "Elevation" \/
   KeyError "Elevation" = KeyError "Crop_type") /\
  calls (mkMachine (Sample.swapper Sample.abc) [])
  = calls (mkMachine (Sample.swapper Sample.abc) []) /\
  (self (mkMachine (Sample.swapper Sample.abc) [])
   = self (mkMachine (Sample.swapper Sample.abc) []) \/
   exists d d1,
     df (self (mkMachine (Sample.swapper Sample.abc) [])) = Some d /\
     abs_column_of "Elevation" d = Ok d1 /\
     self (mkMachine (Sample.swapper Sample.abc) [])
     = set_df d1 (self (mkMachine (Sample.swapper Sample.abc) []))).
Proof.
  apply (apply_corrections_raises_only "Crop_type" "Elevation"
           (mkMachine (Sample.swapper Sample.abc) [])
           (mkMachine (Sample.swapper Sample.abc) [])
           (KeyError "Elevation")).
  vm_compute. reflexivity.
Defined.

(** X9: [apply_corrections] is not all-or-nothing.  On a table whose
    numeric column [abs_column] is there and whose column [column_name]
    is not, it raises [KeyError] for [column_name], and the table it
    leaves already holds the magnitudes. *)
Theorem apply_corrections_keeps_first_assignment (this : FieldDataProcessor)
    (d : DataFrame) (cn ac : string) (s : list value) (tr : list event) :
  df this = Some d ->
  select d ac = [s] ->
  Forall numeric s ->
  cn ∉ columns d ->
  exists d1 s',
    apply_corrections cn ac (mkMachine this tr)
    = (Raise (KeyError cn), mkMachine (set_df d1 this) tr) /\
    select d1 ac = [s'] /\
    Forall2 magnitude s s' /\
    columns d1 = columns d.
Proof.
  intros Hdf Hsel Hnum Hcn.
  destruct (abs_column_of_total ac d) as [d1 Habs].
  { by rewrite Hsel. }
  { rewrite Hsel. by constructor. }
  destruct (abs_column_of_ok _ _ _ Habs) as (_ & Hcols & Hcol & _).
  rewrite Hsel in Hcol.
  apply select_singleton_Forall2 in Hcol as (s' & Hsel' & Hs').
  exists d1, s'. split; [|split; [done|split; [|done]]].
  - unfold apply_corrections, mbind, M_bind, get_self, raise, put_self, lift.
    simpl. rewrite Hdf, Habs. simpl. unfold apply_column.
    assert (Hnone : select d1 cn = []).
    { destruct (select d1 cn) eqn:Hs; [done|].
      assert (Hl : has_label d1 cn = true) by (apply has_label_select; by rewrite Hs).
      apply bool_decide_eq_true in Hl. by rewrite Hcols in Hl. }
    by rewrite Hnone.
  - by apply series_abs_magnitude.
Qed.

(** Elevations -12.5 and 0.5, no Crop_type column. *)
Lemma apply_corrections_keeps_first_assignment_witness :
  exists d1 s',
    apply_corrections "Crop_type" "Elevation"
      (mkMachine (set_df no_crop Sample.pipeline) [])
    = (Raise (KeyError "Crop_type"),
       mkMachine (set_df d1 (set_df no_crop Sample.pipeline)) []) /\
    select d1 "Elevation" = [s'] /\
    Forall2 magnitude [VFloat Sample.minus_12_5; VFloat Sample.half] s' /\
    columns d1 = columns no_crop.
Proof.
  apply (apply_corrections_keeps_first_assignment
           (set_df no_crop Sample.pipeline) no_crop "Crop_type" "Elevation"
           [VFloat Sample.minus_12_5; VFloat Sample.half] []).
  - reflexivity.
  - reflexivity.
  - all_numeric.
  - apply (bool_decide_unpack _). vm_compute. exact I.
Defined.

(** ** [apply_corrections] twice, and what it does not touch *)

Lemma abs_value_again (v v' : value) :
  numeric v -> abs_value v = Ok v' -> abs_value v' = Ok v'.
Proof.
  destruct v as [|z|f|s]; simpl; try done.
  - intros Hz [= <-]. rewrite wrap64_abs by done. simpl. do 2 f_equal.
    case_decide as Hmin; [reflexivity|].
    rewrite (Z.abs_eq (Z.abs z)) by apply Z.abs_nonneg.
    unfold in_int64, int64_min, int64_max, wrap64 in *.
    rewrite Z.mod_small by lia. lia.
  - intros _ [= <-]. simpl. by destruct f.
Qed.

Lemma series_abs_again (s s' : list value) :
  Forall numeric s -> series_abs s = Ok s' -> series_abs s' = Ok s'.
Proof.
  unfold series_abs. revert s'. induction s as [|v s IH]; intros s' Hnum; simpl.
  - by intros [= <-].
  - apply Forall_cons in Hnum as [Hv Hnum].
    destruct (abs_value v) as [v'|] eqn:Hv'; [|done].
    destruct (mapR abs_value s) as [s''|] eqn:Hs; [|done].
    intros [= <-]. simpl.
    by rewrite (abs_value_again v v'), (IH s'').
Qed.

(** A table whose columns under [c] are their own absolute values is
    left as it is by the [abs] assignment. *)
Lemma abs_column_of_fixed (c : string) (d : DataFrame) :
  select d c ≠ [] ->
  Forall (fun s => series_abs s = Ok s) (select d c) ->
  abs_column_of c d = Ok d.
Proof.
  intros Hlabel%has_label_select Hfix. unfold abs_column_of. rewrite Hlabel.
  destruct d as [n cs]. simpl. unfold select in Hfix. simpl in Hfix.
  assert (Hmap : mapR (fun p : string * list value =>
                         if decide (p.1 = c)
                         then match series_abs p.2 with
                              | Ok s => Ok (p.1, s)
                              | Raise e => Raise e
                              end
                         else Ok p) cs = Ok cs).
  { clear Hlabel. induction cs as [|[l s] cs IH]; [done|].
    rewrite filter_cons in Hfix. simpl in *.
    destruct (decide (l = c)) as [->|Hne].
    - rewrite fmap_cons in Hfix. apply Forall_cons in Hfix as [Hs Hfix].
      simpl in Hs. rewrite Hs, IH by done. done.
    - by rewrite IH. }
  by rewrite Hmap.
Qed.

(** X10: a second call of [apply_corrections] changes nothing, provided
    the first one ran on a numeric [abs_column] and a single
    [column_name] that is another column, and no canonical value of the
    mapping is a key that the mapping sends elsewhere. *)
Theorem apply_corrections_twice (this : FieldDataProcessor) (d : DataFrame)
    (cn ac : string) (s c0 : list value) (tr : list event) :
  df this = Some d ->
  select d ac = [s] ->
  Forall numeric s ->
  select d cn = [c0] ->
  cn ≠ ac ->
  settled (values_to_rename this) ->
  (apply_corrections cn ac;; apply_corrections cn ac) (mkMachine this tr)
  = apply_corrections cn ac (mkMachine this tr).
Proof.
  intros Hdf Hsel Hnum Hcn Hne Hset.
  destruct (abs_column_of_total ac d) as [d1 Habs].
  { by rewrite Hsel. }
  { rewrite Hsel. by constructor. }
  destruct (abs_column_of_ok _ _ _ Habs) as (_ & _ & Hcol & Hother).
  rewrite Hsel in Hcol.
  apply select_singleton_Forall2 in Hcol as (s' & Hsel' & Hs').
  assert (Hcn1 : select d1 cn = [c0]) by (by rewrite Hother).
  set (f := get_default (values_to_rename this)).
  set (d2 := map_column cn (fmap f) d1).
  assert (Hrun : apply_corrections cn ac (mkMachine this tr)
                 = (Ok tt, mkMachine (set_df d2 this) tr)).
  { by eapply apply_corrections_run. }
  assert (Hac2 : select d2 ac = [s']).
  { unfold d2. rewrite select_map_column_ne by done. done. }
  assert (Habs2 : abs_column_of ac d2 = Ok d2).
  { apply abs_column_of_fixed; rewrite Hac2; [done|].
    constructor; [|done]. by eapply series_abs_again. }
  assert (Hcn2 : select d2 cn = [f <$> c0]).
  { unfold d2. by rewrite select_map_column_eq, Hcn1. }
  unfold mbind at 1, M_bind. rewrite Hrun.
  rewrite (apply_corrections_run (set_df d2 this) d2 d2 cn ac (f <$> c0) tr)
    by done.
  simpl. fold f. do 2 f_equal. rewrite set_df_set_df. f_equal.
  unfold d2. apply map_column_twice. intros col.
  rewrite <- list_fmap_compose. apply list_fmap_ext. intros i v _. simpl.
  by apply get_default_settled.
Qed.

(** The swapped sample under [{"wheat": "Wheat"}], corrected twice. *)
Lemma apply_corrections_twice_witness :
  (apply_corrections "Crop_type" "Elevation";;
   apply_corrections "Crop_type" "Elevation")
    (mkMachine (set_df Sample.fields_swapped Sample.pipeline) [])
  = apply_corrections "Crop_type" "Elevation"
      (mkMachine (set_df Sample.fields_swapped Sample.pipeline) []).
Proof.
  apply (apply_corrections_twice
           (set_df Sample.fields_swapped Sample.pipeline) Sample.fields_swapped
           "Crop_type" "Elevation"
           [VFloat Sample.minus_12_5; VFloat S754_nan; VFloat Sample.half]
           [VStr "wheat "; VStr "wheat"; VStr "tea"] []).
  - reflexivity.
  - reflexivity.
  - all_numeric.
  - reflexivity.
  - discriminate.
  - intros k t Hk.
    change (({["wheat" := "Wheat"]} : gmap string string) !! k = Some t) in Hk.
    apply lookup_singleton_Some in Hk as [_ <-]. by left.
Defined.

(** X11: a call of [apply_corrections] that returns has changed nothing
    but the data of its two columns: the labels and their order, the row
    count and every other column are as before, and nothing outside the
    process was called. *)
Theorem apply_corrections_touches_two_columns (cn ac : string) (m m' : Machine)
    (d : DataFrame) :
  df (self m) = Some d ->
  apply_corrections cn ac m = (Ok tt, m') ->
  exists d',
    m' = mkMachine (set_df d' (self m)) (calls m) /\
    columns d' = columns d /\
    nrows d' = nrows d /\
    (forall c, c ≠ cn -> c ≠ ac -> select d' c = select d c).
Proof.
  intros Hdf. unfold apply_corrections, mbind, M_bind, get_self, put_self, lift.
  simpl. rewrite Hdf.
  destruct (abs_column_of ac d) as [d1|] eqn:Habs; simpl; [|done].
  destruct (apply_column cn _ d1) as [d2|] eqn:Hmap; simpl; [|done].
  intros [= <-]. exists d2. split; [done|].
  destruct (abs_column_of_ok _ _ _ Habs) as (Hn & Hcols & _ & Hother).
  unfold apply_column in Hmap.
  destruct (select d1 cn) as [|c1 [|c1' l]]; try done.
  injection Hmap as <-.
  split; [by rewrite columns_map_column|]. split; [done|].
  intros c Hcn Hac. rewrite select_map_column_ne by done. by apply Hother.
Qed.

(** The swapped sample: Field_ID and Annual_yield are untouched. *)
Lemma apply_corrections_touches_two_columns_witness :
  exists d',
    mkMachine (set_df Sample.corrected Sample.pipeline) []
    = mkMachine (set_df d' (self (mkMachine (set_df Sample.fields_swapped
                                               Sample.pipeline) [])))
        (calls (mkMachine (set_df Sample.fields_swapped Sample.pipeline) [])) /\
    columns d' = columns Sample.fields_swapped /\
    nrows d' = nrows Sample.fields_swapped /\
    (forall c, c ≠ "Crop_type" -> c ≠ "Elevation" ->
               select d' c = select Sample.fields_swapped c).
Proof.
  apply (apply_corrections_touches_two_columns "Crop_type" "Elevation"
           (mkMachine (set_df Sample.fields_swapped Sample.pipeline) [])
           (mkMachine (set_df Sample.corrected Sample.pipeline) [])
           Sample.fields_swapped).
  - reflexivity.
  - vm_compute. reflexivity.
Defined.

(** ** The join stage: failures, row count and key column *)

Lemma merge_left_raises (key : string) (left right : DataFrame) (e : exn) :
  merge_left key left right = Raise e ->
  e = KeyError key \/ e = ValueError \/ e = MergeError.
Proof.
  unfold merge_left.
  destruct (select left key) as [|lk [|lk' l]];
    destruct (select right key) as [|rk [|rk' r]]; try (intros [= <-]; auto).
  destruct (keys_clash lk rk); [intros [= <-]; auto|].
  destruct (suffixes_clash key left right); [intros [= <-]; auto | done].
Qed.

(** X12: when [weather_station_mapping] raises, the instance is exactly as
    it was, the table included, and the mapping was requested once.  What
    it raises is what the fetch raised or, after a fetch that succeeded,
    what the merge refuses with: [KeyError] for Field_ID, [ValueError] or
    [MergeError]. *)
Theorem weather_station_mapping_failure (w : World) (m m' : Machine) (e : exn) :
  weather_station_mapping w m = (Raise e, m') ->
  self m' = self m /\
  calls m' = (calls m ++ [Fetch (weather_map_data (self m))])%list /\
  df (self m) ≠ None /\
  (pd_read_csv w (weather_map_data (self m)) = Raise e \/
   ((exists wm, pd_read_csv w (weather_map_data (self m)) = Ok wm) /\
    (e = KeyError "Field_ID" \/ e = ValueError \/ e = MergeError))).
Proof.
  unfold weather_station_mapping, read_from_web_CSV, mbind, M_bind, get_self,
    put_self, emit, raise, lift, mret, M_ret. simpl.
  destruct (df (self m)) as [d|] eqn:Hdf; [|done]. simpl.
  destruct (pd_read_csv w (weather_map_data (self m))) as [wm|e'] eqn:Hcsv; simpl.
  - destruct (merge_left "Field_ID" d wm) as [out|e'] eqn:Hmerge; simpl; [done|].
    intros [= <- <-]. simpl. repeat split; try done.
    right. split; [by exists wm|]. by eapply merge_left_raises.
  - intros [= <- <-]. simpl. repeat split; try done. by left.
Qed.

(** A table is there and the mapping cannot be reached. *)
Lemma weather_station_mapping_failure_witness :
  self (mkMachine (set_df Sample.corrected Sample.pipeline) [Fetch Sample.url])
  = self (mkMachine (set_df Sample.corrected Sample.pipeline) []) /\
  calls (mkMachine (set_df Sample.corrected Sample.pipeline) [Fetch Sample.url])
  = (calls (mkMachine (set_df Sample.corrected Sample.pipeline) [])
     ++ [Fetch (weather_map_data
                  (self (mkMachine (set_df Sample.corrected Sample.pipeline) [])))])%list /\
  df (self (mkMachine (set_df Sample.corrected Sample.pipeline) [])) ≠ None /\
  (pd_read_csv Sample.offline
     (weather_map_data (self (mkMachine (set_df Sample.corrected Sample.pipeline) [])))
   = Raise (OtherError "unreachable") \/
   ((exists wm,
       pd_read_csv Sample.offline
         (weather_map_data (self (mkMachine (set_df Sample.corrected Sample.pipeline) [])))
       = Ok wm) /\
    (OtherError "unreachable" = KeyError "Field_ID" \/
     OtherError "unreachable" = ValueError \/
     OtherError "unreachable" = MergeError))).
Proof.
  apply (weather_station_mapping_failure Sample.offline
           (mkMachine (set_df Sample.corrected Sample.pipeline) [])
           (mkMachine (set_df Sample.corrected Sample.pipeline) [Fetch Sample.url])
           (OtherError "unreachable")).
  vm_compute. reflexivity.
Defined.

(** What a successful call did. *)
Lemma weather_station_mapping_ok_inv (w : World) (m m' : Machine)
    (d : DataFrame) (r : option DataFrame) :
  df (self m) = Some d ->
  weather_station_mapping w m = (Ok r, m') ->
  exists wm out,
    pd_read_csv w (weather_map_data (self m)) = Ok wm /\
    merge_left "Field_ID" d wm = Ok out /\
    r = Some wm /\
    m' = mkMachine (set_df out (self m))
           (calls m ++ [Fetch (weather_map_data (self m))]).
Proof.
  intros Hdf.
  unfold weather_station_mapping, read_from_web_CSV, mbind, M_bind, get_self,
    put_self, emit, raise, lift, mret, M_ret. simpl. rewrite Hdf. simpl.
  destruct (pd_read_csv w (weather_map_data (self m))) as [wm|e'] eqn:Hcsv;
    simpl; [|done].
  destruct (merge_left "Field_ID" d wm) as [out|e'] eqn:Hmerge; simpl; [|done].
  intros [= <- <-]. by exists wm, out.
Qed.

Lemma merge_left_ok_inv (key : string) (left right out : DataFrame) :
  merge_left key left right = Ok out ->
  exists lk rk,
    select left key = [lk] /\ select right key = [rk] /\
    out = mkDF (length (merge_indexer lk rk))
            (((fun p : string * list value =>
                 (suffixed (appended key right).*1 "_x" p.1,
                  take_left (merge_indexer lk rk) p.2)) <$> cols left)
             ++ ((fun p : string * list value =>
                    (suffixed (columns left) "_y" p.1,
                     take_right (merge_indexer lk rk) p.2)) <$> appended key right)).
Proof.
  unfold merge_left.
  destruct (select left key) as [|lk [|lk' l]];
    destruct (select right key) as [|rk [|rk' r]]; try done.
  destruct (keys_clash lk rk); [done|].
  destruct (suffixes_clash key left right); [done|].
  intros [= <-]. by exists lk, rk.
Qed.

Lemma fan_out_two_partners (lk rk : list value) (i j1 j2 : nat) (k v1 v2 : value) :
  lk !! i = Some k ->
  (j1 < j2)%nat -> rk !! j1 = Some v1 -> rk !! j2 = Some v2 ->
  key_eqb k v1 = true -> key_eqb k v2 = true ->
  (length lk < fan_out lk rk)%nat.
Proof.
  intros Hi Hlt H1 H2 Hk1 Hk2.
  assert (Hm : (2 <= partners k rk)%nat).
  { rewrite <- (length_matches_from 0 k rk). fold (matches k rk).
    assert (Hin1 : j1 ∈ matches k rk) by (apply elem_of_matches; eauto).
    assert (Hin2 : j2 ∈ matches k rk) by (apply elem_of_matches; eauto).
    destruct (matches k rk) as [|a [|b l]]; simpl; try lia.
    - by apply elem_of_nil in Hin1.
    - apply list_elem_of_singleton in Hin1, Hin2. lia. }
  clear -Hi Hm. unfold fan_out. revert i Hi.
  induction lk as [|k' lk IH]; intros i Hi; [done|].
  rewrite fmap_cons. simpl.
  pose proof (fan_out_ge lk rk) as Hge. unfold fan_out in Hge.
  destruct i as [|i]; simpl in Hi.
  - injection Hi as ->. lia.
  - specialize (IH i Hi). lia.
Qed.

(** X13: when the key of some field row is equal, as the join compares
    keys, to the keys of two rows of the mapping table, the joined table
    has more rows than the field table. *)
Theorem weather_station_mapping_fans_out (w : World) (m m' : Machine)
    (d : DataFrame) (r : option DataFrame) (lk rk lk' rk' : list value)
    (wm : DataFrame) (i j1 j2 : nat) (k v1 v2 : value) :
  df (self m) = Some d ->
  rectangular d ->
  weather_station_mapping w m = (Ok r, m') ->
  pd_read_csv w (weather_map_data (self m)) = Ok wm ->
  select d "Field_ID" = [lk] ->
  select wm "Field_ID" = [rk] ->
  common_keys lk rk = (lk', rk') ->
  lk' !! i = Some k ->
  (j1 < j2)%nat -> rk' !! j1 = Some v1 -> rk' !! j2 = Some v2 ->
  key_eqb k v1 = true -> key_eqb k v2 = true ->
  exists out, df (self m') = Some out /\ (nrows d < nrows out)%nat.
Proof.
  intros Hdf Hrect Hrun Hcsv Hlk Hrk Hkeys Hi Hlt H1 H2 Hk1 Hk2.
  destruct (weather_station_mapping_ok_inv w m m' d r Hdf Hrun)
    as (wm' & out & Hcsv' & Hmerge & _ & ->).
  assert (wm' = wm) by congruence. subst wm'.
  destruct (merge_left_ok_inv _ _ _ _ Hmerge) as (lk0 & rk0 & Hlk' & Hrk' & ->).
  assert (lk0 = lk) by congruence. assert (rk0 = rk) by congruence. subst.
  eexists. split; [done|]. simpl.
  unfold merge_indexer, join_indexer. rewrite length_join_from, Hkeys. simpl.
  rewrite <- (rectangular_select d _ lk Hrect Hlk).
  destruct (length_common_keys lk rk) as [<- _]. rewrite Hkeys. simpl.
  by eapply fan_out_two_partners.
Qed.

(** Field 1 is listed twice in the sample mapping. *)
Lemma weather_station_mapping_fans_out_witness :
  exists out,
    df (self (mkMachine (set_df Sample.joined Sample.pipeline) [Fetch Sample.url]))
    = Some out /\
    (nrows Sample.corrected < nrows out)%nat.
Proof.
  apply (weather_station_mapping_fans_out
           (Sample.world_of Sample.fields Sample.station_map)
           (mkMachine (set_df Sample.corrected Sample.pipeline) [])
           (mkMachine (set_df Sample.joined Sample.pipeline) [Fetch Sample.url])
           Sample.corrected (Some Sample.station_map)
           [VInt 1; VInt 2; VInt 3] [VInt 1; VInt 1; VInt 3]
           [VInt 1; VInt 2; VInt 3] [VInt 1; VInt 1; VInt 3]
           Sample.station_map 0%nat 0%nat 1%nat (VInt 1) (VInt 1) (VInt 1)).
  - reflexivity.
  - repeat constructor.
  - vm_compute. reflexivity.
  - reflexivity.
  - reflexivity.
  - reflexivity.
  - reflexivity.
  - reflexivity.
  - lia.
  - reflexivity.
  - reflexivity.
  - reflexivity.
  - reflexivity.
Defined.

(** ** The key column of the joined table *)

(** No suffixed label is the key. *)
Lemma suffix_is_not_key (c sfx : string) :
  sfx = "_x" \/ sfx = "_y" -> c +:+ sfx ≠ "Field_ID".
Proof.
  intros Hsfx Heq.
  assert (Hlen : String.length c = 6%nat).
  { apply (f_equal String.length) in Heq. rewrite string_length_app in Heq.
    destruct Hsfx as [-> | ->]; simpl in Heq; lia. }
  do 7 (destruct c as [|? c]; simpl in Hlen; try lia).
  destruct Hsfx as [-> | ->]; compute in Heq; congruence.
Qed.

Lemma suffixed_is_key (others : list string) (sfx c : string) :
  sfx = "_x" \/ sfx = "_y" -> "Field_ID" ∉ others ->
  suffixed others sfx c = "Field_ID" <-> c = "Field_ID".
Proof.
  intros Hsfx Hkey. unfold suffixed. case_bool_decide as Hin.
  - split; [by intros ?%suffix_is_not_key | by intros ->].
  - done.
Qed.

Lemma fmap_constant {A B} (f : A -> B) (l : list A) (b : B) :
  (forall a, a ∈ l -> f a = b) -> f <$> l = replicate (length l) b.
Proof.
  intros Hf. induction l as [|a l IH]; [done|].
  rewrite fmap_cons. simpl. rewrite Hf by apply list_elem_of_here.
  rewrite IH; [done|]. intros a' Ha'. apply Hf. by apply list_elem_of_further.
Qed.

(** Gathering the left key column through the indexer repeats each key
    in its place; [lk'] holds the keys as they are compared. *)
Lemma take_left_join_from (lk lk' rk pre : list value) :
  length lk' = length lk ->
  take_left (join_from (length pre) lk' rk) (pre ++ lk)%list
  = flat_map (fun kk : value * value =>
                replicate (partners kk.2 rk `max` 1)%nat kk.1) (zip lk lk').
Proof.
  revert lk pre. induction lk' as [|k' lk' IH]; intros [|k lk] pre Hlen;
    try done.
  simpl. unfold take_left in *. rewrite fmap_app. f_equal.
  - rewrite <- (length_rows_for (length pre) k' rk).
    apply fmap_constant. intros [i oj] [-> _]%elem_of_rows_for. simpl.
    by rewrite list_lookup_middle.
  - specialize (IH lk (pre ++ [k])%list). rewrite length_app in IH.
    simpl in IH. rewrite <- app_assoc in IH. simpl in IH.
    replace (S (length pre)) with (length pre + 1)%nat by lia.
    apply IH. simpl in Hlen. lia.
Qed.

Lemma key_in_left_part (ix : list (nat * option nat)) (others : list string)
    (cs : list (string * list value)) :
  "Field_ID" ∉ others ->
  (filter (fun p : string * list value => p.1 = "Field_ID")
     ((fun p : string * list value =>
         (suffixed others "_x" p.1, take_left ix p.2)) <$> cs)).*2
  = take_left ix <$> (filter (fun p => p.1 = "Field_ID") cs).*2.
Proof.
  intros Hkey. induction cs as [|[c s] cs IH]; [done|].
  rewrite fmap_cons, !filter_cons. simpl.
  destruct (decide (c = "Field_ID")) as [->|Hne].
  - rewrite decide_True by (by apply suffixed_is_key; auto).
    rewrite !fmap_cons. simpl. by rewrite IH.
  - rewrite decide_False; [done|].
    intros Heq. apply suffixed_is_key in Heq; auto.
Qed.

Lemma key_not_in_right_part (ix : list (nat * option nat)) (names : list string)
    (cs : list (string * list value)) :
  filter (fun p : string * list value => p.1 = "Field_ID")
    ((fun p : string * list value =>
        (suffixed names "_y" p.1, take_right ix p.2))
       <$> filter (fun p => p.1 ≠ "Field_ID") cs) = [].
Proof.
  induction cs as [|[c s] cs IH]; [done|].
  rewrite filter_cons. simpl. destruct (decide (c ≠ "Field_ID")) as [Hne|_]; [|done].
  rewrite fmap_cons, filter_cons. simpl. rewrite decide_False; [done|].
  unfold suffixed. case_bool_decide; [|done].
  apply suffix_is_not_key. auto.
Qed.

(** X14: after a join that succeeded, the joined table has one Field_ID
    column, and it lists the keys of the field table in their order, each
    one once per mapping row whose key is equal to it as the join
    compares keys, and once when there is none: the field rows keep
    their order and no key is lost. *)
Theorem weather_station_mapping_key_column (w : World) (m m' : Machine)
    (d wm : DataFrame) (r : option DataFrame) (lk rk : list value) :
  df (self m) = Some d ->
  weather_station_mapping w m = (Ok r, m') ->
  pd_read_csv w (weather_map_data (self m)) = Ok wm ->
  select d "Field_ID" = [lk] ->
  select wm "Field_ID" = [rk] ->
  exists out,
    df (self m') = Some out /\
    select out "Field_ID" = [repeated_keys lk rk].
Proof.
  intros Hdf Hrun Hcsv Hlk Hrk.
  destruct (weather_station_mapping_ok_inv w m m' d r Hdf Hrun)
    as (wm' & out & Hcsv' & Hmerge & _ & ->).
  assert (wm' = wm) by congruence. subst wm'.
  destruct (merge_left_ok_inv _ _ _ _ Hmerge) as (lk' & rk' & Hlk' & Hrk' & ->).
  assert (lk' = lk) by congruence. assert (rk' = rk) by congruence. subst.
  eexists. split; [done|].
  set (ix := merge_indexer lk rk).
  assert (Hnokey : "Field_ID" ∉ (appended "Field_ID" wm).*1).
  { unfold appended. intros ([c s] & Hc & [Hne _]%list_elem_of_filter)%list_elem_of_fmap.
    simpl in *. congruence. }
  unfold select. simpl. rewrite filter_app, fmap_app.
  unfold appended in *.
  rewrite key_in_left_part by done. rewrite key_not_in_right_part.
  fold (select d "Field_ID"). rewrite Hlk. simpl. do 2 f_equal.
  apply (take_left_join_from lk _ _ []).
  by destruct (length_common_keys lk rk).
Qed.

(** Keys 1, 2, 3 against a mapping that lists 1 twice and 2 not at all:
    the key column is 1, 1, 2, 3. *)
Lemma weather_station_mapping_key_column_witness :
  exists out,
    df (self (mkMachine (set_df Sample.joined Sample.pipeline) [Fetch Sample.url]))
    = Some out /\
    select out "Field_ID" = [[VInt 1; VInt 1; VInt 2; VInt 3]].
Proof.
  apply (weather_station_mapping_key_column
           (Sample.world_of Sample.fields Sample.station_map)
           (mkMachine (set_df Sample.corrected Sample.pipeline) [])
           (mkMachine (set_df Sample.joined Sample.pipeline) [Fetch Sample.url])
           Sample.corrected Sample.station_map (Some Sample.station_map)
           [VInt 1; VInt 2; VInt 3] [VInt 1; VInt 1; VInt 3]).
  - reflexivity.
  - vm_compute. reflexivity.
  - reflexivity.
  - reflexivity.
  - reflexivity.
Defined.

(** ** What every stage leaves alone *)

Lemma same_config_refl (p : FieldDataProcessor) : same_config p p.
Proof. by repeat split. Qed.

Lemma same_config_set_df (p q : FieldDataProcessor) (d : DataFrame) :
  same_config p q -> same_config (set_df d p) q.
Proof. by intros (? & ? & ? & ? & ?). Qed.

Lemma same_config_set_engine (p q : FieldDataProcessor) (e : Engine) :
  same_config p q -> same_config (set_engine e p) q.
Proof. by intros (? & ? & ? & ? & ?). Qed.

Lemma same_config_trans (p q r : FieldDataProcessor) :
  same_config p q -> same_config q r -> same_config p r.
Proof.
  intros (? & ? & ? & ? & ?) (? & ? & ? & ? & ?). repeat split; congruence.
Qed.

(** Ingestion: the configuration stays; the trace gains the connection
    and, unless the engine failed, the query; a table is there on
    success. *)
Lemma ingest_sql_data_frame (w : World) (m m' : Machine) (r : result DataFrame) :
  ingest_sql_data w m = (r, m') ->
  same_config (self m') (self m) /\
  match r with
  | Ok d =>
      calls m' = (calls m ++ [Connect (db_path (self m));
                              Query (sql_query (self m))])%list
      /\ df (self m') = Some d /\ empty d = false
      /\ exists eng, engine (self m') = Some eng
                     /\ pd_read_sql_query w eng (sql_query (self m)) = Ok d
  | Raise _ =>
      calls m' = (calls m ++ [Connect (db_path (self m))])%list \/
      calls m' = (calls m ++ [Connect (db_path (self m));
                              Query (sql_query (self m))])%list
  end.
Proof.
  unfold ingest_sql_data, create_db_engine, query_data, mbind, M_bind,
    get_self, put_self, emit, raise, mret, M_ret. simpl.
  destruct (sa_create_engine w (db_path (self m))) as [eng|e]; simpl.
  - destruct (sa_connect w eng) as [[]|e]; simpl.
    + destruct (pd_read_sql_query w eng (sql_query (self m))) as [d|e] eqn:Hread;
        simpl.
      * destruct (empty d) eqn:Hempty; simpl; intros [= <- <-]; simpl.
        -- split; [by apply same_config_set_engine, same_config_refl|].
           right. by rewrite <- app_assoc.
        -- split; [by apply same_config_set_df, same_config_set_engine,
                     same_config_refl|].
           split; [by rewrite <- app_assoc|]. repeat split; try done.
           by exists eng.
      * intros [= <- <-]. simpl.
        split; [by apply same_config_set_engine, same_config_refl|].
        right. by rewrite <- app_assoc.
    + destruct e; intros [= <- <-]; simpl;
        (split; [apply same_config_refl | by left]).
  - destruct e; intros [= <- <-]; simpl;
      (split; [apply same_config_refl | by left]).
Qed.

(** The two table stages: configuration and trace stay, and a table that
    was there is still there. *)
Lemma rename_columns_frame (m m' : Machine) (r : result unit) :
  rename_columns m = (r, m') ->
  same_config (self m') (self m) /\ calls m' = calls m /\
  (df (self m) ≠ None -> df (self m') ≠ None).
Proof.
  unfold rename_columns, mbind, M_bind, get_self, raise, put_self. simpl.
  destruct (columns_to_rename (self m)) as [|[A B] rest].
  - intros [= <- <-]. split; [apply same_config_refl | done].
  - destruct (df (self m)) as [d|] eqn:Hdf.
    + destruct (temp_name_for (columns d)); intros [= <- <-]; simpl.
      * split; [by apply same_config_set_df, same_config_refl | done].
      * split; [apply same_config_refl|]. split; [done|]. by rewrite Hdf.
    + intros [= <- <-]. split; [apply same_config_refl | done].
Qed.

Lemma apply_corrections_frame (cn ac : string) (m m' : Machine) (r : result unit) :
  apply_corrections cn ac m = (r, m') ->
  same_config (self m') (self m) /\ calls m' = calls m /\
  (df (self m) ≠ None -> df (self m') ≠ None).
Proof.
  unfold apply_corrections, mbind, M_bind, get_self, raise, put_self, lift.
  simpl. destruct (df (self m)) as [d|] eqn:Hdf.
  - destruct (abs_column_of ac d) as [d1|]; simpl.
    + destruct (apply_column cn _ d1) as [d2|]; simpl; intros [= <- <-]; simpl;
        (split; [by apply same_config_set_df, same_config_refl | done]).
    + intros [= <- <-]. split; [apply same_config_refl|]. split; [done|].
      by rewrite Hdf.
  - intros [= <- <-]. split; [apply same_config_refl | done].
Qed.

(** The join stage: with a table there, one fetch is recorded and a
    table is still there. *)
Lemma weather_station_mapping_frame (w : World) (m m' : Machine)
    (r : result (option DataFrame)) :
  weather_station_mapping w m = (r, m') ->
  df (self m) ≠ None ->
  same_config (self m') (self m) /\
  calls m' = (calls m ++ [Fetch (weather_map_data (self m))])%list /\
  df (self m') ≠ None.
Proof.
  unfold weather_station_mapping, read_from_web_CSV, mbind, M_bind, get_self,
    put_self, emit, raise, lift, mret, M_ret. simpl.
  destruct (df (self m)) as [d|] eqn:Hdf; [|done]. simpl. intros Hrun _.
  destruct (pd_read_csv w (weather_map_data (self m))) as [wm|]; simpl in Hrun.
  - destruct (merge_left "Field_ID" d wm) as [out|]; simpl in Hrun;
      injection Hrun as <- <-; simpl.
    + split; [by apply same_config_set_df, same_config_refl | done].
    + split; [apply same_config_refl|]. split; [done|]. by rewrite Hdf.
  - injection Hrun as <- <-. simpl.
    split; [apply same_config_refl|]. split; [done|]. by rewrite Hdf.
Qed.

(** The four stages together. *)
Lemma four_stages_frame (w : World) (m m' : Machine)
    (r : result (option DataFrame)) :
  four_stages w m = (r, m') ->
  same_config (self m') (self m) /\
  (exists l, calls m' = (calls m ++ l)%list /\ l `prefix_of` gateway_calls (self m)) /\
  ((exists d0 m1, ingest_sql_data w m = (Ok d0, m1)) -> df (self m') ≠ None) /\
  (forall x, r = Ok x ->
             calls m' = (calls m ++ gateway_calls (self m))%list /\
             df (self m') ≠ None).
Proof.
  unfold four_stages, mbind at 1 2 3, M_bind.
  destruct (ingest_sql_data w m) as [r0 m0] eqn:H0.
  destruct (ingest_sql_data_frame w m m0 r0 H0) as [Hc0 Ht0].
  assert (Hq : gateway_calls (self m)
               = [Connect (db_path (self m)); Query (sql_query (self m));
                  Fetch (weather_map_data (self m))]) by done.
  destruct r0 as [d0|e0].
  2:{ intros [= <- <-]. split; [done|]. split; [|split; [|done]].
      - destruct Ht0 as [-> | ->]; eexists; (split; [done|]); rewrite Hq.
        + by exists [Query (sql_query (self m)); Fetch (weather_map_data (self m))].
        + by exists [Fetch (weather_map_data (self m))].
      - by intros (? & ? & [=]). }
  destruct Ht0 as (Ht0 & Hdf0 & _).
  assert (Hsome0 : df (self m0) ≠ None) by (by rewrite Hdf0).
  destruct (rename_columns m0) as [r1 m1] eqn:H1.
  destruct (rename_columns_frame m0 m1 r1 H1) as (Hc1 & Ht1 & Hs1).
  destruct r1 as [[]|e1].
  2:{ intros [= <- <-]. split; [by eapply same_config_trans|].
      split; [|split; [by auto | done]].
      rewrite Ht1, Ht0. eexists. split; [done|]. rewrite Hq.
      by exists [Fetch (weather_map_data (self m))]. }
  destruct (apply_corrections "Crop_type" "Elevation" m1) as [r2 m2] eqn:H2.
  destruct (apply_corrections_frame _ _ m1 m2 r2 H2) as (Hc2 & Ht2 & Hs2).
  destruct r2 as [[]|e2].
  2:{ intros [= <- <-].
      split; [by eapply same_config_trans; [|eapply same_config_trans]|].
      split; [|split; [by auto | done]].
      rewrite Ht2, Ht1, Ht0. eexists. split; [done|]. rewrite Hq.
      by exists [Fetch (weather_map_data (self m))]. }
  intros H3.
  destruct (weather_station_mapping_frame w m2 m' r H3) as (Hc3 & Ht3 & Hs3);
    [by auto|].
  assert (Hc : same_config (self m2) (self m)).
  { by eapply same_config_trans; [|eapply same_config_trans]. }
  assert (Hurl : weather_map_data (self m2) = weather_map_data (self m)).
  { by destruct Hc as (_ & _ & _ & _ & ?). }
  assert (Hcalls : calls m' = (calls m ++ gateway_calls (self m))%list).
  { rewrite Ht3, Ht2, Ht1, Ht0, Hurl, Hq. by rewrite <- app_assoc. }
  split; [by eapply same_config_trans|].
  split; [by exists (gateway_calls (self m))|]. by split.
Qed.

(** What the ingestion has recorded, and what the libraries had answered
    by then. *)
Lemma ingest_sql_data_trace (w : World) (m m' : Machine) (r : result DataFrame) :
  ingest_sql_data w m = (r, m') ->
  (calls m' = (calls m ++ [Connect (db_path (self m))])%list /\
   exists e, r = Raise e) \/
  (calls m' = (calls m ++ [Connect (db_path (self m));
                           Query (sql_query (self m))])%list /\
   exists eng, sa_create_engine w (db_path (self m)) = Ok eng /\
               sa_connect w eng = Ok tt /\
               forall d, r = Ok d ->
                         pd_read_sql_query w eng (sql_query (self m)) = Ok d /\
                         empty d = false).
Proof.
  unfold ingest_sql_data, create_db_engine, query_data, mbind, M_bind,
    get_self, put_self, emit, raise, mret, M_ret. simpl.
  destruct (sa_create_engine w (db_path (self m))) as [eng|e] eqn:Hcreate; simpl.
  - destruct (sa_connect w eng) as [[]|e] eqn:Hconn; simpl.
    + destruct (pd_read_sql_query w eng (sql_query (self m))) as [d|e] eqn:Hread;
        simpl.
      * destruct (empty d) eqn:Hempty; simpl; intros [= <- <-]; simpl;
          right; (split; [by rewrite <- app_assoc|]); exists eng;
          (split; [done|]); (split; [done|]); intros d'; [done|].
        by intros [= <-].
      * intros [= <- <-]. simpl. right. split; [by rewrite <- app_assoc|].
        exists eng. split; [done|]. split; [done|]. done.
    + destruct e; intros [= <- <-]; simpl; left; (split; [done|]); by eexists.
  - destruct e; intros [= <- <-]; simpl; left; (split; [done|]); by eexists.
Qed.

(** The trace of the four stages, case by case. *)
Lemma four_stages_trace (w : World) (m m' : Machine)
    (r : result (option DataFrame)) :
  four_stages w m = (r, m') ->
  exists l, calls m' = (calls m ++ l)%list /\
    (l = [Connect (db_path (self m))] \/
     ((l = [Connect (db_path (self m)); Query (sql_query (self m))] \/
       (l = [Connect (db_path (self m)); Query (sql_query (self m));
             Fetch (weather_map_data (self m))] /\
        exists eng d0,
          sa_create_engine w (db_path (self m)) = Ok eng /\
          pd_read_sql_query w eng (sql_query (self m)) = Ok d0 /\
          empty d0 = false)) /\
      exists eng, sa_create_engine w (db_path (self m)) = Ok eng /\
                  sa_connect w eng = Ok tt)).
Proof.
  unfold four_stages, mbind at 1 2 3, M_bind.
  destruct (ingest_sql_data w m) as [r0 m0] eqn:H0.
  destruct (ingest_sql_data_frame w m m0 r0 H0) as [Hc0 Hf0].
  destruct (ingest_sql_data_trace w m m0 r0 H0)
    as [[Ht0 [e0 ->]]|(Ht0 & eng & Hcreate & Hconn & Hread)].
  { intros [= <- <-]. eexists. split; [done|]. by left. }
  destruct r0 as [d0|e0].
  2:{ intros [= <- <-]. eexists. split; [done|]. right. split; [by left|].
      by exists eng. }
  destruct (Hread d0 eq_refl) as [Hq Hempty].
  destruct Hf0 as (_ & Hdf0 & _).
  assert (Hsome0 : df (self m0) ≠ None) by (by rewrite Hdf0).
  destruct (rename_columns m0) as [r1 m1] eqn:H1.
  destruct (rename_columns_frame m0 m1 r1 H1) as (Hc1 & Ht1 & Hs1).
  destruct r1 as [[]|e1].
  2:{ intros [= <- <-]. rewrite Ht1. eexists. split; [done|].
      right. split; [by left|]. by exists eng. }
  destruct (apply_corrections "Crop_type" "Elevation" m1) as [r2 m2] eqn:H2.
  destruct (apply_corrections_frame _ _ m1 m2 r2 H2) as (Hc2 & Ht2 & Hs2).
  destruct r2 as [[]|e2].
  2:{ intros [= <- <-]. rewrite Ht2, Ht1. eexists. split; [done|].
      right. split; [by left|]. by exists eng. }
  intros H3.
  destruct (weather_station_mapping_frame w m2 m' r H3) as (Hc3 & Ht3 & Hs3);
    [by auto|].
  assert (Hc : same_config (self m2) (self m)).
  { by eapply same_config_trans; [|eapply same_config_trans]. }
  assert (Hurl : weather_map_data (self m2) = weather_map_data (self m)).
  { by destruct Hc as (_ & _ & _ & _ & ?). }
  eexists. split.
  { rewrite Ht3, Ht2, Ht1, Ht0, Hurl. by rewrite <- app_assoc. }
  right. split; [|by exists eng]. right. split; [done|]. by exists eng, d0.
Qed.

(** X15: whatever the outside world answers and however [process] ends,
    it has left the five configured attributes as they were.  In the
    trace it has added, the query comes after the connect and only when
    [create_engine] and the connection test had succeeded, and the fetch
    of the mapping comes after the query and only when the query had
    returned a table that is not empty. *)
Theorem process_calls_and_config (w : World) (m : Machine) :
  same_config (self (process w m).2) (self m) /\
  exists l,
    calls (process w m).2 = (calls m ++ l)%list /\
    (forall l1 l2 q, l = (l1 ++ Query q :: l2)%list ->
       q = sql_query (self m) /\
       Connect (db_path (self m)) ∈ l1 /\
       exists eng, sa_create_engine w (db_path (self m)) = Ok eng /\
                   sa_connect w eng = Ok tt) /\
    (forall l1 l2 u, l = (l1 ++ Fetch u :: l2)%list ->
       u = weather_map_data (self m) /\
       Query (sql_query (self m)) ∈ l1 /\
       exists eng d0,
         sa_create_engine w (db_path (self m)) = Ok eng /\
         pd_read_sql_query w eng (sql_query (self m)) = Ok d0 /\
         empty d0 = false).
Proof.
  rewrite process_after_four_stages.
  destruct (four_stages w m) as [r m'] eqn:Hfour.
  destruct (four_stages_frame w m m' r Hfour) as (Hc & _).
  destruct (four_stages_trace w m m' r Hfour) as (l & Hl & Hcases).
  assert (Hgoal :
    same_config (self m') (self m) /\
    exists l,
      calls m' = (calls m ++ l)%list /\
      (forall l1 l2 q, l = (l1 ++ Query q :: l2)%list ->
         q = sql_query (self m) /\
         Connect (db_path (self m)) ∈ l1 /\
         exists eng, sa_create_engine w (db_path (self m)) = Ok eng /\
                     sa_connect w eng = Ok tt) /\
      (forall l1 l2 u, l = (l1 ++ Fetch u :: l2)%list ->
         u = weather_map_data (self m) /\
         Query (sql_query (self m)) ∈ l1 /\
         exists eng d0,
           sa_create_engine w (db_path (self m)) = Ok eng /\
           pd_read_sql_query w eng (sql_query (self m)) = Ok d0 /\
           empty d0 = false)).
  { split; [done|]. exists l. split; [done|].
    destruct Hcases as [->|[[->|[-> Hq]] He]].
    - split; intros [|? [|? ?]] l2 x [=].
    - split.
      + intros [|? [|? [|? ?]]] l2 q [=]; subst.
        split; [done|]. split; [apply list_elem_of_here | done].
      + intros [|? [|? [|? ?]]] l2 u [=].
    - split.
      + intros [|? [|? [|? [|? ?]]]] l2 q [=]; subst.
        split; [done|]. split; [apply list_elem_of_here | done].
      + intros [|? [|? [|? [|? ?]]]] l2 u [=]; subst.
        split; [done|]. split; [|done].
        apply list_elem_of_further, list_elem_of_here. }
  destruct r as [x|e]; [|done].
  destruct (df (self m')) as [d|]; [|done].
  destruct (drop_column "Unnamed: 0" d); [|done].
  simpl. destruct Hgoal as [Hcfg Hrest]. split; [|done].
  by apply same_config_set_df.
Qed.

(** X16: [process] does not roll back.  When it raises after the
    ingestion has succeeded, [df] is not reset: it still holds a table. *)
Theorem process_failure_leaves_table (w : World) (m m1 m' : Machine)
    (d0 : DataFrame) (e : exn) :
  ingest_sql_data w m = (Ok d0, m1) ->
  process w m = (Raise e, m') ->
  exists d, df (self m') = Some d.
Proof.
  intros Hingest. rewrite process_after_four_stages.
  destruct (four_stages w m) as [r m2] eqn:Hfour.
  destruct (four_stages_frame w m m2 r Hfour) as (_ & _ & Hsome & _).
  assert (Hdf : df (self m2) ≠ None) by (apply Hsome; eauto).
  destruct (df (self m2)) as [d|] eqn:Hd; [|done].
  destruct r as [x|e'].
  - destruct (drop_column "Unnamed: 0" d); [done|].
    intros [= <- <-]. by exists d.
  - intros [= <- <-]. by exists d.
Qed.

(** The mapping file has no index column: the drop fails and the joined
    table stays. *)
Lemma process_failure_leaves_table_witness :
  exists d,
    df (self (mkMachine (Sample.running Sample.joined_no_index) Sample.run_calls))
    = Some d.
Proof.
  apply (process_failure_leaves_table
           (Sample.world_of Sample.fields Sample.station_map_no_index)
           (mkMachine Sample.pipeline [])
           (mkMachine (Sample.running Sample.fields)
              [Connect "sqlite:///farm.db"; Query "SELECT * FROM fields"])
           (mkMachine (Sample.running Sample.joined_no_index) Sample.run_calls)
           Sample.fields (KeyError "Unnamed: 0")).
  - vm_compute. reflexivity.
  - vm_compute. reflexivity.
Defined.

(** ** What a successful run leaves *)

Lemma rectangular_by_shape (d : DataFrame) :
  rectangular d <-> Forall (fun n => n = (shape d).1) (shape d).2.
Proof.
  unfold rectangular, shape. simpl. rewrite !Forall_fmap.
  apply Forall_iff. by intros [c s].
Qed.

Lemma rectangular_shape (d d' : DataFrame) :
  shape d' = shape d -> rectangular d -> rectangular d'.
Proof. intros Hs. rewrite !rectangular_by_shape. by rewrite Hs. Qed.

Lemma shape_rename (m : gmap string string) (d : DataFrame) :
  shape (rename m d) = shape d.
Proof.
  unfold shape. destruct (rename_data m d) as (-> & -> & _). done.
Qed.

Lemma shape_map_column (c : string) (f : value -> value) (d : DataFrame) :
  shape (map_column c (fmap f) d) = shape d.
Proof.
  unfold shape, map_column. simpl. f_equal.
  rewrite <- !list_fmap_compose. apply list_fmap_ext.
  intros i [l s] _. simpl. case_decide; simpl; [by rewrite length_fmap | done].
Qed.

Lemma shape_abs_column_of (c : string) (d d' : DataFrame) :
  abs_column_of c d = Ok d' -> shape d' = shape d.
Proof.
  unfold abs_column_of. destruct (has_label d c); [|done].
  destruct (mapR _ (cols d)) as [cs|] eqn:Hmap; [|done].
  intros [= <-]. unfold shape. simpl. f_equal.
  apply mapR_Forall2 in Hmap.
  induction Hmap as [|[l s] [l' s'] cs0 cs' Hp _ IH]; [done|].
  rewrite !fmap_cons. simpl. rewrite IH. f_equal.
  simpl in Hp. destruct (decide (l = c)); [|congruence].
  destruct (series_abs s) as [s''|] eqn:Hs; [|done].
  injection Hp as <- <-. apply mapR_Forall2 in Hs.
  symmetry. by eapply Forall2_length.
Qed.

Lemma rename_columns_ok_inv (m m' : Machine) :
  rename_columns m = (Ok tt, m') ->
  exists d d', df (self m) = Some d /\
               m' = mkMachine (set_df d' (self m)) (calls m) /\
               shape d' = shape d.
Proof.
  unfold rename_columns, mbind, M_bind, get_self, raise, put_self. simpl.
  destruct (columns_to_rename (self m)) as [|[A B] rest]; [done|].
  destruct (df (self m)) as [d|]; [|done].
  destruct (temp_name_for (columns d)) as [temp|]; [|done].
  intros [= <-]. eexists d, _. split; [done|]. split; [done|].
  unfold swap_step2, swap_step1. by rewrite !shape_rename.
Qed.

Lemma apply_corrections_ok_inv (cn ac : string) (m m' : Machine) :
  apply_corrections cn ac m = (Ok tt, m') ->
  exists d d', df (self m) = Some d /\
               m' = mkMachine (set_df d' (self m)) (calls m) /\
               shape d' = shape d.
Proof.
  unfold apply_corrections, mbind, M_bind, get_self, put_self, lift, raise.
  simpl. destruct (df (self m)) as [d|]; [|done].
  destruct (abs_column_of ac d) as [d1|] eqn:Habs; simpl; [|done].
  destruct (apply_column cn _ d1) as [d2|] eqn:Hmap; simpl; [|done].
  intros [= <-]. exists d, d2. split; [done|]. split; [done|].
  unfold apply_column in Hmap. destruct (select d1 cn) as [|? [|? ?]]; try done.
  injection Hmap as <-. rewrite shape_map_column. by eapply shape_abs_column_of.
Qed.

(** The left key keeps its label in the joined table. *)
Lemma merge_left_keeps_key (left right out : DataFrame) :
  merge_left "Field_ID" left right = Ok out -> "Field_ID" ∈ columns out.
Proof.
  intros (lk & rk & Hlk & _ & ->)%merge_left_ok_inv.
  assert (Hin : ("Field_ID", lk) ∈ cols left).
  { apply elem_of_select. rewrite Hlk. apply list_elem_of_here. }
  unfold columns. simpl. rewrite fmap_app. apply elem_of_app. left.
  rewrite <- list_fmap_compose. apply list_elem_of_fmap.
  exists ("Field_ID", lk). split; [|done]. simpl.
  symmetry. apply suffixed_is_key; [by left| |done].
  unfold appended.
  intros ([c s] & Hc & [Hne _]%list_elem_of_filter)%list_elem_of_fmap.
  simpl in *. congruence.
Qed.

Lemma merge_left_rows (left right out : DataFrame) :
  rectangular left ->
  merge_left "Field_ID" left right = Ok out -> (nrows left <= nrows out)%nat.
Proof.
  intros Hrect (lk & rk & Hlk & _ & ->)%merge_left_ok_inv. simpl.
  rewrite <- (rectangular_select left _ lk Hrect Hlk).
  unfold merge_indexer, join_indexer. rewrite length_join_from.
  destruct (length_common_keys lk rk) as [<- _]. apply fan_out_ge.
Qed.

(** X17: after a [process] that returned, [df] holds a table that has a
    Field_ID column and no column named "Unnamed: 0"; the engine is the
    one the query ran on; and the table has at least as many rows as the
    query returned, which is at least one, as long as the query result
    has one entry per row in every column. *)
Theorem process_postcondition (w : World) (m m' : Machine) :
  process w m = (Ok tt, m') ->
  exists final eng d0,
    df (self m') = Some final /\
    engine (self m') = Some eng /\
    pd_read_sql_query w eng (sql_query (self m)) = Ok d0 /\
    "Field_ID" ∈ columns final /\
    ("Unnamed: 0" ∉ columns final) /\
    (0 < nrows d0)%nat /\
    (rectangular d0 -> (nrows d0 <= nrows final)%nat).
Proof.
  rewrite process_after_four_stages. unfold four_stages, mbind at 1 2 3, M_bind.
  destruct (ingest_sql_data w m) as [[d0|] m0] eqn:H0; [|done].
  destruct (ingest_sql_data_frame w m m0 _ H0)
    as (_ & _ & Hdf0 & Hempty & eng & Heng & Hread).
  destruct (rename_columns m0) as [[[]|] m1] eqn:H1; [|done].
  destruct (rename_columns_ok_inv m0 m1 H1) as (d0' & d1 & Hd0' & -> & Hsh1).
  assert (d0' = d0) by congruence. subst d0'.
  destruct (apply_corrections "Crop_type" "Elevation" _) as [[[]|] m2] eqn:H2;
    [|done].
  destruct (apply_corrections_ok_inv _ _ _ m2 H2) as (d1' & d3 & Hd1' & -> & Hsh3).
  simpl in Hd1'. injection Hd1' as <-.
  destruct (weather_station_mapping w _) as [[r|] m3] eqn:H3; [|done].
  apply weather_station_mapping_ok_inv with (d := d3) in H3
    as (wm & merged & _ & Hmerge & _ & ->); [|done].
  simpl. unfold drop_column, has_label. case_bool_decide as Hin; [|done].
  intros [= <-]. simpl. eexists _, eng, d0.
  split; [done|]. split; [by destruct (self m0)|]. split; [done|].
  split; [|split; [|split]].
  - unfold columns. simpl. apply list_elem_of_fmap.
    pose proof (merge_left_keeps_key _ _ _ Hmerge) as Hkey.
    apply list_elem_of_fmap in Hkey as ([c s] & Hc & Hcs). simpl in Hc.
    exists (c, s). split; [done|]. apply list_elem_of_filter.
    split; [|done]. simpl. by rewrite <- Hc.
  - unfold columns. simpl.
    intros ([c s] & Hc & [Hne _]%list_elem_of_filter)%list_elem_of_fmap.
    simpl in *. congruence.
  - unfold empty in Hempty. apply orb_false_iff in Hempty as [Hn _].
    apply Nat.eqb_neq in Hn. lia.
  - intros Hrect.
    assert (Hr3 : rectangular d3).
    { eapply rectangular_shape; [exact Hsh3|].
      eapply rectangular_shape; [exact Hsh1|]. done. }
    pose proof (merge_left_rows _ _ _ Hr3 Hmerge) as Hrows.
    assert (nrows d3 = nrows d0).
    { injection Hsh3 as -> _. by injection Hsh1 as -> _. }
    simpl. lia.
Qed.

(** The sample run. *)
Lemma process_postcondition_witness :
  exists final eng d0,
    df (self (mkMachine (Sample.running Sample.finalized) Sample.run_calls))
    = Some final /\
    engine (self (mkMachine (Sample.running Sample.finalized) Sample.run_calls))
    = Some eng /\
    pd_read_sql_query (Sample.world_of Sample.fields Sample.station_map) eng
      (sql_query (self (mkMachine Sample.pipeline []))) = Ok d0 /\
    "Field_ID" ∈ columns final /\
    ("Unnamed: 0" ∉ columns final) /\
    (0 < nrows d0)%nat /\
    (rectangular d0 -> (nrows d0 <= nrows final)%nat).
Proof.
  apply (process_postcondition
           (Sample.world_of Sample.fields Sample.station_map)
           (mkMachine Sample.pipeline [])
           (mkMachine (Sample.running Sample.finalized) Sample.run_calls)).
  vm_compute. reflexivity.
Defined.

(** ** The shared logger *)

Lemma log_level_of_none (upper : string -> string) (s : string) :
  Logging.log_level_of upper s = None <-> upper s = "NONE".
Proof.
  unfold Logging.log_level_of. repeat case_decide; split; try done; congruence.
Qed.

Lemma initialize_logging_disabled (upper : string -> string) (s : string)
    (lg : Logging.Logger) :
  Logging.disabled (Logging.initialize_logging upper s lg)
  = Logging.disabled lg || Logging.asks_none upper s.
Proof.
  unfold Logging.initialize_logging, Logging.asks_none.
  destruct (Logging.log_level_of upper s) as [l|] eqn:Hl; simpl.
  - rewrite bool_decide_eq_false_2; [|rewrite <- log_level_of_none; congruence].
    rewrite orb_false_r. by destruct (Logging.handlers lg).
  - apply log_level_of_none in Hl. rewrite bool_decide_eq_true_2 by done.
    by rewrite orb_true_r.
Qed.

Lemma initialize_logging_handlers (upper : string -> string) (s : string)
    (lg : Logging.Logger) :
  Logging.handlers (Logging.initialize_logging upper s lg)
  = match Logging.handlers lg with
    | [] => if Logging.asks_none upper s then [] else [Logging.console]
    | hs => hs
    end.
Proof.
  unfold Logging.initialize_logging, Logging.asks_none.
  destruct (Logging.log_level_of upper s) as [l|] eqn:Hl; simpl.
  - rewrite bool_decide_eq_false_2; [|rewrite <- log_level_of_none; congruence].
    by destruct (Logging.handlers lg).
  - apply log_level_of_none in Hl. rewrite bool_decide_eq_true_2 by done.
    by destruct (Logging.handlers lg).
Qed.

(** X18: the shared logger is disabled after any number of instantiations
    exactly when it was disabled before or one of them asked for "NONE":
    no later instantiation, whatever its level, enables it again. *)
Theorem logger_disabled_for_good (upper : string -> string)
    (logging_levels : list string) (lg : Logging.Logger) :
  Logging.disabled (Logging.instantiate upper logging_levels lg)
  = Logging.disabled lg || existsb (Logging.asks_none upper) logging_levels.
Proof.
  unfold Logging.instantiate. revert lg.
  induction logging_levels as [|s ss IH]; intros lg; simpl.
  - by rewrite orb_false_r.
  - rewrite IH, initialize_logging_disabled. by rewrite orb_assoc.
Qed.

(** X19: the console handler is added at most once.  A logger that has
    handlers keeps exactly those through any number of instantiations;
    one that has none gets the one console handler as soon as an
    instantiation does not ask for "NONE", and nothing more after. *)
Theorem logger_handler_added_once (upper : string -> string)
    (logging_levels : list string) (lg : Logging.Logger) :
  Logging.handlers (Logging.instantiate upper logging_levels lg)
  = match Logging.handlers lg with
    | [] => if forallb (Logging.asks_none upper) logging_levels
            then [] else [Logging.console]
    | hs => hs
    end.
Proof.
  unfold Logging.instantiate. revert lg.
  induction logging_levels as [|s ss IH]; intros lg; simpl.
  - by destruct (Logging.handlers lg).
  - rewrite IH, initialize_logging_handlers.
    destruct (Logging.handlers lg) as [|h hs]; [|done].
    by destruct (Logging.asks_none upper s).
Qed.

(** ** Elevation after the correction and in the final output *)

(** No suffixed label is "Elevation". *)
Lemma suffix_is_not_elevation (c sfx : string) :
  sfx = "_x" \/ sfx = "_y" -> c +:+ sfx ≠ "Elevation".
Proof.
  intros Hsfx Heq.
  assert (Hlen : String.length c = 7%nat).
  { apply (f_equal String.length) in Heq. rewrite string_length_app in Heq.
    destruct Hsfx as [-> | ->]; simpl in Heq; lia. }
  do 8 (destruct c as [|? c]; simpl in Hlen; try lia).
  destruct Hsfx as [-> | ->]; compute in Heq; congruence.
Qed.

Lemma suffixed_is_elevation (others : list string) (sfx c : string) :
  sfx = "_x" \/ sfx = "_y" ->
  suffixed others sfx c = "Elevation" <->
  c = "Elevation" /\ "Elevation" ∉ others.
Proof.
  intros Hsfx. unfold suffixed. case_bool_decide as Hin.
  - split; [by intros ?%suffix_is_not_elevation|]. by intros [-> ?].
  - split; [by intros ->|]. by intros [-> _].
Qed.

(** The columns that a join labels "Elevation" are the left columns of
    that label, gathered through the indexer, and there is none when the
    right table has the label as well. *)
Lemma elevation_in_left_part (ix : list (nat * option nat))
    (others : list string) (cs : list (string * Series)) :
  (filter (fun p : string * Series => p.1 = "Elevation")
     ((fun p : string * Series =>
         (suffixed others "_x" p.1, take_left ix p.2)) <$> cs)).*2
  = if bool_decide ("Elevation" ∈ others) then []
    else take_left ix <$> (filter (fun p => p.1 = "Elevation") cs).*2.
Proof.
  induction cs as [|[c s] cs IH]; [by case_bool_decide|].
  rewrite fmap_cons, !filter_cons. simpl.
  destruct (decide (suffixed others "_x" c = "Elevation")) as [Heq|Hne].
  - apply suffixed_is_elevation in Heq as [-> Hno]; [|auto].
    rewrite decide_True by done. rewrite !fmap_cons, IH. simpl.
    by rewrite !bool_decide_eq_false_2 by done.
  - rewrite IH. case_bool_decide as Hin; [done|].
    rewrite decide_False; [done|]. intros ->. apply Hne.
    apply suffixed_is_elevation; auto.
Qed.

Lemma elevation_not_in_right_part (ix : list (nat * option nat))
    (names : list string) (cs : list (string * Series)) :
  "Elevation" ∈ names ->
  filter (fun p : string * Series => p.1 = "Elevation")
    ((fun p : string * Series =>
        (suffixed names "_y" p.1, take_right ix p.2)) <$> cs) = [].
Proof.
  intros Hin. induction cs as [|[c s] cs IH]; [done|].
  rewrite fmap_cons, filter_cons. simpl. rewrite decide_False; [done|].
  intros [_ Hno]%suffixed_is_elevation; auto.
Qed.

(** Every left row has an entry in the indexer. *)
Lemma join_indexer_covers (lk rk : Series) (i : nat) :
  (i < length lk)%nat -> exists oj, (i, oj) ∈ join_indexer lk rk.
Proof.
  intros Hi. destruct (lookup_lt_is_Some_2 lk i Hi) as [k Hk].
  unfold join_indexer.
  destruct (matches k rk) as [|j js] eqn:Hm.
  - exists None. apply elem_of_join_from. split; [lia|]. exists k.
    rewrite Nat.sub_0_r. split; [done|]. apply elem_of_rows_for. eauto.
  - exists (Some j). apply elem_of_join_from. split; [lia|]. exists k.
    rewrite Nat.sub_0_r. split; [done|]. apply elem_of_rows_for.
    split; [done|]. right. exists j. split; [done|].
    rewrite Hm. apply list_elem_of_here.
Qed.

(** Gathering a column of the left table's length through the indexer
    of a left join neither loses nor invents a value. *)
Lemma elem_of_take_left (lk rk s : Series) (v : value) :
  length s = length lk ->
  v ∈ take_left (join_indexer lk rk) s <-> v ∈ s.
Proof.
  intros Hlen. unfold take_left. rewrite list_elem_of_fmap. split.
  - intros ([i oj] & -> & Hin). simpl.
    apply elem_of_join_indexer in Hin as (k & Hk & _).
    apply lookup_lt_Some in Hk. rewrite <- Hlen in Hk.
    destruct (lookup_lt_is_Some_2 s i Hk) as [v Hv]. rewrite Hv. simpl.
    by eapply list_elem_of_lookup_2.
  - intros (i & Hi)%list_elem_of_lookup_1.
    destruct (join_indexer_covers lk rk i) as [oj Hoj].
    { rewrite <- Hlen. by eapply lookup_lt_Some. }
    exists (i, oj). split; [|done]. simpl. by rewrite Hi.
Qed.

Lemma select_drop_column (c c' : string) (d d' : DataFrame) :
  c' ≠ c -> drop_column c d = Ok d' -> select d' c' = select d c'.
Proof.
  intros Hne. unfold drop_column. destruct (has_label d c); [|done].
  intros [= <-]. unfold select. simpl. f_equal.
  rewrite list_filter_filter. apply list_filter_iff.
  intros [l s]. simpl. split; [by intros [? _] | intros ->; done].
Qed.

(** A magnitude other than NaN and the least [int64] is [>= 0]. *)
Lemma magnitude_result_ge0 (v v' : value) :
  numeric v -> magnitude v v' ->
  is_nan v' = false -> v' ≠ VInt int64_min -> ge0 v' = true.
Proof.
  intros Hnum Hmag Hnan Hmin. eapply magnitude_ge0; [done..| |].
  - destruct v as [|z|f|s]; simpl in *; try done. subst v'.
    by destruct f as [[]|[]| |[] m e].
  - intros ->. apply Hmin. unfold magnitude in Hmag.
    destruct (decide (int64_min = int64_min)); [done | congruence].
Qed.

(** C1, as amended: on a table with one Elevation column of numbers and
    one Crop_type column, [apply_corrections] returns, and every value
    under Elevation afterwards is the magnitude of the value before, taken
    in the value's own type (a NaN stays NaN, the least int64 stays
    itself).  Every result other than those two is [>= 0], and a value
    that already was [>= 0] is still equal to what it was (identical,
    unless it was the negative zero, which becomes the positive zero).
    And the final output: when that table, with one entry per row in
    every column, is the one that [process] hands to [apply_corrections]
    and [process] returns, every column of the final table that is
    labelled Elevation holds exactly the values of the corrected column
    (the join repeats rows and alters no left cell), so that each of
    them other than a NaN and the least int64 is [>= 0]; there is one
    such column when the mapping table has no column of that name. *)
Theorem apply_corrections_elevation (this : FieldDataProcessor)
    (d : DataFrame) (s c0 : Series) (tr : list event) :
  df this = Some d ->
  select d "Elevation" = [s] ->
  Forall numeric s ->
  select d "Crop_type" = [c0] ->
  exists d' s',
    apply_corrections "Crop_type" "Elevation" (mkMachine this tr)
    = (Ok tt, mkMachine (set_df d' this) tr) /\
    select d' "Elevation" = [s'] /\
    Forall2 (fun v v' =>
               magnitude v v' /\
               (is_nan v = false -> v ≠ VInt int64_min -> ge0 v' = true) /\
               (ge0 v = true ->
                veq v' v = true /\ (v ≠ VFloat (S754_zero true) -> v' = v)))
            s s' /\
    (forall (w : World) (m0 m' : Machine),
       rectangular d ->
       (ingest_sql_data w;; rename_columns) m0 = (Ok tt, mkMachine this tr) ->
       process w m0 = (Ok tt, m') ->
       exists final wm,
         df (self m') = Some final /\
         pd_read_csv w (weather_map_data this) = Ok wm /\
         (forall sf, sf ∈ select final "Elevation" ->
                     forall v', v' ∈ sf <-> v' ∈ s') /\
         (forall sf v', sf ∈ select final "Elevation" -> v' ∈ sf ->
                        is_nan v' = false -> v' ≠ VInt int64_min ->
                        ge0 v' = true) /\
         ("Elevation" ∉ columns wm ->
          exists sf, select final "Elevation" = [sf])).
Proof.
  intros Hdf Hsel Hnum Hcrop.
  destruct (abs_column_of_total "Elevation" d) as [d1 Habs].
  { by rewrite Hsel. }
  { rewrite Hsel. by constructor. }
  destruct (abs_column_of_ok _ _ _ Habs) as (_ & _ & Hcol & Hother).
  rewrite Hsel in Hcol.
  apply select_singleton_Forall2 in Hcol as (s' & Hsel' & Hs').
  assert (Hcrop1 : select d1 "Crop_type" = [c0]) by (by rewrite Hother).
  pose proof (apply_corrections_run this d d1 "Crop_type" "Elevation" c0 tr
                Hdf Habs Hcrop1) as Hrun.
  set (d' := map_column "Crop_type"
               (fmap (get_default (values_to_rename this))) d1) in *.
  assert (Hsel2 : select d' "Elevation" = [s'])
    by (unfold d'; by rewrite select_map_column_ne).
  pose proof (series_abs_magnitude s s' Hnum Hs') as Hmag.
  assert (Hshape : shape d' = shape d).
  { unfold d'. rewrite shape_map_column. by eapply shape_abs_column_of. }
  clearbody d'.
  exists d', s'. split; [done|]. split; [done|]. split.
  { clear -Hnum Hmag.
    induction Hmag as [|v v' s s' Hv _ IH]; [constructor|].
    apply Forall_cons in Hnum as [Hnumv Hnum]. constructor; [|auto].
    split; [done|]. split.
    - by apply magnitude_ge0.
    - by apply magnitude_of_nonneg. }
  intros w m0 m' Hrect Hpre Hproc.
  rewrite process_after_four_stages in Hproc.
  unfold four_stages, mbind at 1 2 3, M_bind in Hproc.
  unfold mbind at 1, M_bind in Hpre.
  destruct (ingest_sql_data w m0) as [[d0|] m1]; [|done].
  rewrite Hpre, Hrun in Hproc.
  destruct (weather_station_mapping w _) as [[r|] m3] eqn:H3; [|done].
  apply weather_station_mapping_ok_inv with (d := d') in H3
    as (wm & merged & Hcsv & Hmerge & _ & ->); [|done].
  simpl in Hcsv.
  simpl in Hproc.
  destruct (drop_column "Unnamed: 0" merged) as [final|] eqn:Hdrop; [|done].
  injection Hproc as <-. simpl. exists final, wm.
  split; [done|]. split; [exact Hcsv|].
  assert (Hrect' : rectangular d') by (by eapply rectangular_shape).
  destruct (merge_left_ok_inv _ _ _ _ Hmerge) as (lk & rk & Hlk & Hrk & Hout).
  assert (Hfinal : select final "Elevation"
                   = if bool_decide ("Elevation" ∈ (appended "Field_ID" wm).*1)
                     then [] else [take_left (merge_indexer lk rk) s']).
  { rewrite (select_drop_column "Unnamed: 0" "Elevation" merged final)
      by done.
    rewrite Hout. unfold select. simpl. rewrite filter_app, fmap_app.
    rewrite elevation_in_left_part.
    rewrite elevation_not_in_right_part.
    - pose proof Hsel2 as Hsel3. unfold select in Hsel3. rewrite Hsel3.
      case_bool_decide; by rewrite app_nil_r.
    - assert (Hin : has_label d' "Elevation" = true)
        by (apply has_label_select; by rewrite Hsel2).
      unfold has_label in Hin. by apply bool_decide_eq_true in Hin. }
  assert (Hvals : forall sf, sf ∈ select final "Elevation" ->
                             forall v', v' ∈ sf <-> v' ∈ s').
  { intros sf. rewrite Hfinal. case_bool_decide; [by intros ?%elem_of_nil|].
    intros ->%list_elem_of_singleton v'. unfold merge_indexer.
    apply elem_of_take_left.
    rewrite (rectangular_select d' _ s' Hrect' Hsel2).
    rewrite <- (rectangular_select d' _ lk Hrect' Hlk).
    by destruct (length_common_keys lk rk) as [-> _]. }
  split; [done|]. split.
  - intros sf v' Hsf Hv'. apply (Hvals sf Hsf) in Hv'.
    apply list_elem_of_lookup_1 in Hv' as (i & Hi).
    destruct (Forall2_lookup_r _ _ _ _ _ Hmag Hi) as (v & Hv & Hvv').
    apply magnitude_result_ge0 with (v := v); [|done].
    rewrite Forall_lookup in Hnum. by eapply Hnum.
  - intros Hno. rewrite Hfinal. rewrite bool_decide_eq_false_2; [eauto|].
    intros ([c col] & Hc & [_ Hin]%list_elem_of_filter)%list_elem_of_fmap.
    apply Hno. unfold columns. apply list_elem_of_fmap. by exists (c, col).
Qed.

(** The sample run: elevations -12.5, missing and 0.5 after the swap;
    field 1 has two stations, so the final column holds 12.5 twice. *)
Lemma apply_corrections_elevation_witness :
  exists d' s',
    apply_corrections "Crop_type" "Elevation"
      (mkMachine (Sample.running Sample.fields_swapped)
         [Connect "sqlite:///farm.db"; Query "SELECT * FROM fields"])
    = (Ok tt,
       mkMachine (set_df d' (Sample.running Sample.fields_swapped))
         [Connect "sqlite:///farm.db"; Query "SELECT * FROM fields"]) /\
    select d' "Elevation" = [s'] /\
    Forall2 (fun v v' =>
               magnitude v v' /\
               (is_nan v = false -> v ≠ VInt int64_min -> ge0 v' = true) /\
               (ge0 v = true ->
                veq v' v = true /\ (v ≠ VFloat (S754_zero true) -> v' = v)))
            [VFloat Sample.minus_12_5; VFloat S754_nan; VFloat Sample.half] s' /\
    exists final wm,
      df (self (mkMachine (Sample.running Sample.finalized) Sample.run_calls))
      = Some final /\
      pd_read_csv (Sample.world_of Sample.fields Sample.station_map)
        (weather_map_data (Sample.running Sample.fields_swapped)) = Ok wm /\
      (forall sf, sf ∈ select final "Elevation" ->
                  forall v', v' ∈ sf <-> v' ∈ s') /\
      (forall sf v', sf ∈ select final "Elevation" -> v' ∈ sf ->
                     is_nan v' = false -> v' ≠ VInt int64_min ->
                     ge0 v' = true) /\
      ("Elevation" ∉ columns wm ->
       exists sf, select final "Elevation" = [sf]).
Proof.
  destruct (apply_corrections_elevation
              (Sample.running Sample.fields_swapped) Sample.fields_swapped
              [VFloat Sample.minus_12_5; VFloat S754_nan; VFloat Sample.half]
              [VStr "wheat "; VStr "wheat"; VStr "tea"]
              [Connect "sqlite:///farm.db"; Query "SELECT * FROM fields"])
    as (d' & s' & Hrun & Hsel & Hmag & Hfinal).
  - reflexivity.
  - reflexivity.
  - all_numeric.
  - reflexivity.
  - exists d', s'. split; [exact Hrun|]. split; [exact Hsel|].
    split; [exact Hmag|].
    apply (Hfinal (Sample.world_of Sample.fields Sample.station_map)
             (mkMachine Sample.pipeline [])
             (mkMachine (Sample.running Sample.finalized) Sample.run_calls)).
    + repeat constructor.
    + vm_compute. reflexivity.
    + vm_compute. reflexivity.
Defined.
